(** * build-database.py: the incremental archive mirror, embedded and verified

    A shallow embedding of [build-database.py] (the PoC-in-GitHub mirror):
    the [CVE] identifier with its formatter and parser, the [Exploit]
    descriptor with branch resolution, the freshness test of [refresh_zip],
    the archive fetch of [download_zip], and the driver loop of [main].

    Conventions of the model.
    - A Python [str] is a Rocq [string]; a character is a code point below
      256.  In that range the regular-expression class [\d] is exactly
      ['0'..'9'].  Files hold such strings (encodings are not modelled).
    - A dataclass field that Python leaves dynamically typed is a [pyval]:
      the annotation [int] does not convert what the constructor receives.
    - String formatting follows Python 3.10 and later, where a leading [0]
      in a format width no longer changes the alignment of a [str].
    - Stateful code runs in a state-and-exception monad [M]; the state holds
      the files, the directories, the list of HTTP requests issued and the
      error log.  What the outside world answers (HTTP bodies, the library
      date parser, the regular-expression engine on the scraped page, the
      clock) is read from a [World].
    - [st_mtime] is a float; every float is a rational and Python compares
      a float with an [int] exactly, so times are rationals ([Q]).
    - A record of the feed has the keys the program reads, each with a
      string ([RepoData]); a record that lacks one is not modelled.
    - The filesystem is a map from path strings to files and a set of
      directories; two different path strings name two different files.
      Of the errors of the operating system only [FileNotFoundError] is
      modelled: a missing file, or a missing directory for a file that is
      opened for writing.
    - The regular expression of the scrape is built from the repository
      name as it is, unescaped, so what it matches depends on Python's whole
      pattern language: the pattern is built here as the source builds it
      and handed to [re_search] of the [World].
    - The progress bar of [main] is taken to iterate and nothing more. *)

From Stdlib Require Import ZArith QArith String Ascii List Bool Lia.
From Stdlib Require Import DecimalString DecimalZ DecimalPos.
From stdpp Require Import base gmap strings.

Import ListNotations.
Local Open Scope string_scope.
Local Open Scope Z_scope.

(* stdpp freezes [append] under [simpl]; the proofs below compute with it. *)
#[local] Arguments String.append !s1 s2 : simpl nomatch.

(** ** Python strings *)

Module PyStr.

Definition is_digit (c : ascii) : bool :=
  let n := nat_of_ascii c in (48 <=? n)%nat && (n <=? 57)%nat.

Fixpoint all_digits (s : string) : bool :=
  match s with
  | EmptyString => true
  | String c r => is_digit c && all_digits r
  end.

(** The longest prefix of digits, and what follows it: a greedy [\d*]. *)
Fixpoint span_digits (s : string) : string * string :=
  match s with
  | String c r =>
      if is_digit c
      then let (d, t) := span_digits r in (String c d, t)
      else (EmptyString, s)
  | EmptyString => (EmptyString, EmptyString)
  end.

(** [s.startswith(p)], returning the rest of [s]. *)
Fixpoint strip_prefix (p s : string) : option string :=
  match p, s with
  | EmptyString, _ => Some s
  | String a p', String b s' =>
      if Ascii.eqb a b then strip_prefix p' s' else None
  | String _ _, EmptyString => None
  end.

Definition startswith (s p : string) : bool :=
  match strip_prefix p s with Some _ => true | None => false end.

(** [sub in s] *)
Fixpoint contains (sub s : string) : bool :=
  startswith s sub ||
  match s with
  | String _ r => contains sub r
  | EmptyString => false
  end.

Fixpoint zeros (n : nat) : string :=
  match n with O => EmptyString | S k => String "0" (zeros k) end.

(** [str(z)] for an [int]. *)
Definition str_int (z : Z) : string := NilZero.string_of_int (Z.to_int z).

(** [format(z, '04')] for an [int]: sign first, then zeros up to width 4. *)
Definition format_04_int (z : Z) : string :=
  if z <? 0
  then let d := str_int (- z) in
       String "-" (zeros (3 - String.length d) ++ d)
  else let d := str_int z in zeros (4 - String.length d) ++ d.

(** [format(s, '04')] for a [str]: left-aligned, filled with ['0']. *)
Definition format_04_str (s : string) : string :=
  s ++ zeros (4 - String.length s).

End PyStr.

(** ** Exceptions and values *)

(** The exceptions the program raises or lets through.  The payload is the
    value the message is built from, not the rendered message. *)
Inductive exn : Type :=
  | ValueError (arg : string)
  | EmptyRepository (url : string)
  | RuntimeError (url : string)
  | FileNotFoundError (path : string)
  | RequestException (url : string)
  | ReError (pattern : string)
  | OSError (what : string).

Definition is_EmptyRepository (e : exn) : bool :=
  match e with EmptyRepository _ => true | _ => false end.

Definition is_FileNotFoundError (e : exn) : bool :=
  match e with FileNotFoundError _ => true | _ => false end.

Inductive outcome (A : Type) : Type :=
  | Ret (a : A)
  | Raise (e : exn).
Arguments Ret {A} a.
Arguments Raise {A} e.

Inductive pyval : Type :=
  | PyInt (z : Z)
  | PyStr (s : string).

(** [==] on the values a [CVE] field can hold: an [int] never equals a
    [str]. *)
Definition pyval_eqb (a b : pyval) : bool :=
  match a, b with
  | PyInt x, PyInt y => Z.eqb x y
  | PyStr x, PyStr y => String.eqb x y
  | _, _ => false
  end.

Definition py_str (v : pyval) : string :=
  match v with PyInt z => PyStr.str_int z | PyStr s => s end.

Definition py_format_04 (v : pyval) : string :=
  match v with
  | PyInt z => PyStr.format_04_int z
  | PyStr s => PyStr.format_04_str s
  end.

(** ** class CVE *)

Record CVE : Type := mkCVE { year : pyval; id : pyval }.

(** The dataclass [__eq__]: the tuples [(year, id)] are compared. *)
Definition CVE_eq (a b : CVE) : bool :=
  pyval_eqb (year a) (year b) && pyval_eqb (id a) (id b).

(** [CVE.__str__]: [f'CVE-{self.year}-{self.id:04}'] *)
Definition CVE_str (c : CVE) : string :=
  "CVE-" ++ py_str (year c) ++ "-" ++ py_format_04 (id c).

(** [re.compile(r'^CVE-(?P<year>\d+)-(?P<id>\d+)').search(string)]:
    the groups [(year, id)] of the match, if there is one.  Without
    [re.MULTILINE] the anchor [^] holds at position 0 only, so [search]
    tries that position alone; both [\d+] are greedy. *)
Definition cve_re_search (s : string) : option (string * string) :=
  match PyStr.strip_prefix "CVE-" s with
  | None => None
  | Some r1 =>
      let (y, r2) := PyStr.span_digits r1 in
      match y, r2 with
      | String _ _, String "-" r3 =>
          let (i, _) := PyStr.span_digits r3 in
          match i with
          | String _ _ => Some (y, i)
          | EmptyString => None
          end
      | _, _ => None
      end
  end.

(** [CVE.fromstr]: the groups are passed on as they are, as [str]. *)
Definition fromstr (s : string) : outcome CVE :=
  match cve_re_search s with
  | None => Raise (ValueError s)
  | Some (y, i) => Ret (mkCVE (PyStr y) (PyStr i))
  end.

(** ** Paths ([posixpath]) *)

Module Path.

Definition sep : ascii := "/"%char.

Fixpoint endswith_sep (p : string) : bool :=
  match p with
  | EmptyString => false
  | String c EmptyString => Ascii.eqb c sep
  | String _ r => endswith_sep r
  end.

(** One round of the loop of [os.path.join]. *)
Definition join2 (path b : string) : string :=
  if PyStr.startswith b "/" then b
  else match path with
       | EmptyString => b
       | _ => if endswith_sep path then path ++ b else path ++ "/" ++ b
       end.

Definition join (a : string) (p : list string) : string :=
  fold_left join2 p a.

(** [(p[:i], p[i:])] for [i = p.rfind('/') + 1]. *)
Fixpoint rsplit (p : string) : string * string :=
  match p with
  | EmptyString => (EmptyString, EmptyString)
  | String c r =>
      let (h, t) := rsplit r in
      match h with
      | String _ _ => (String c h, t)
      | EmptyString =>
          if Ascii.eqb c sep then (String sep EmptyString, t)
          else (EmptyString, String c t)
      end
  end.

Fixpoint all_sep (s : string) : bool :=
  match s with
  | EmptyString => true
  | String c r => Ascii.eqb c sep && all_sep r
  end.

(** [s.rstrip('/')] *)
Fixpoint rstrip_sep (s : string) : string :=
  match s with
  | EmptyString => EmptyString
  | String c r =>
      match rstrip_sep r with
      | EmptyString => if Ascii.eqb c sep then EmptyString else String c EmptyString
      | r' => String c r'
      end
  end.

Definition dirname (p : string) : string :=
  let head := fst (rsplit p) in
  match head with
  | EmptyString => head
  | _ => if all_sep head then head else rstrip_sep head
  end.

Definition basename (p : string) : string := snd (rsplit p).

(** The directory and the directories above it, nearest first. *)
Fixpoint chain (fuel : nat) (d : string) : list string :=
  match fuel with
  | O => []
  | S k =>
      match d with
      | EmptyString => []
      | _ => d :: chain k (dirname d)
      end
  end.

End Path.

(** ** The filesystem, the network and the state *)

Record file : Type := mkFile { f_data : string; st_mtime : Q; st_atime : Q }.

Inductive log_record : Type :=
  | LogDebugEmpty (url : string)
  | LogErrorFetch (poc : string) (e : exn)
  | LogInfoCount (n : nat)
  | LogErrorTop (e : exn).

Record State : Type := mkState {
  files : gmap string file;
  dirs : gset string;
  requests : list string;    (* URLs of the GETs issued, oldest first *)
  log : list log_record      (* records logged, oldest first *)
}.

(** What one HTTP GET answers: the status line, the chunks of the body in
    the order [iter_content] yields them, and whether the transfer broke
    after the last of them. *)
Record response : Type := mkResponse {
  status_code : Z;
  chunks : list string;
  broken : bool
}.

(** What [re.search] makes of a pattern and a text: the pattern does not
    compile, there is no match, or there is one, with its group [branch]
    ([None] when the group took no part in the match). *)
Inductive re_result : Type :=
  | ReInvalid
  | ReNoMatch
  | ReMatch (branch : option string).

Record World : Type := mkWorld {
  (** the answer to the [n]-th GET of the run, for its URL; [None] when
      [requests.get] itself raises *)
  http_get : nat -> string -> option response;
  (** [re.search(pattern, text)] *)
  re_search : string -> string -> re_result;
  (** [int(datetime.strptime(s, '%Y-%m-%dT%H:%M:%SZ').strftime('%s'))];
      [None] when it raises *)
  strptime_s : string -> option Z;
  (** the clock that stamps a file when it is written *)
  now : Q
}.

Definition text (r : response) : string := String.concat "" (chunks r).

(** ** The monad: state, and exceptions that keep the state *)

Definition M (A : Type) : Type := State -> outcome A * State.

#[global] Instance M_ret : MRet M := fun A a s => (Ret a, s).

#[global] Instance M_bind : MBind M := fun A B k m s =>
  match m s with
  | (Ret a, s') => k a s'
  | (Raise e, s') => (Raise e, s')
  end.

Definition raise {A : Type} (e : exn) : M A := fun s => (Raise e, s).

Definition lift {A : Type} (o : outcome A) : M A := fun s => (o, s).

(** [try: m  except <handles>: h] *)
Definition try_except {A : Type} (m : M A) (handles : exn -> bool)
    (h : exn -> M A) : M A := fun s =>
  match m s with
  | (Ret a, s') => (Ret a, s')
  | (Raise e, s') => if handles e then h e s' else (Raise e, s')
  end.

Definition Qltb (a b : Q) : bool := negb (Qle_bool b a).

Definition set_files (s : State) (fs : gmap string file) : State :=
  mkState fs (dirs s) (requests s) (log s).

Definition add_dirs (s : State) (ds : gset string) : State :=
  mkState (files s) (ds ∪ dirs s) (requests s) (log s).

Definition add_request (s : State) (u : string) : State :=
  mkState (files s) (dirs s) (requests s ++ [u])%list (log s).

Definition add_log (s : State) (r : log_record) : State :=
  mkState (files s) (dirs s) (requests s) (log s ++ [r])%list.

Module OS.

(** The empty path names the working directory, which is there. *)
Definition dir_exists (s : State) (d : string) : bool :=
  bool_decide (d = EmptyString) || bool_decide (d ∈ dirs s).

(** [os.makedirs(d, mode=0o755, exist_ok=True)] *)
Definition makedirs (d : string) : M unit := fun s =>
  match d with
  | EmptyString => (Raise (FileNotFoundError d), s)
  | _ => (Ret tt, add_dirs s (list_to_set (Path.chain (String.length d) d)))
  end.

(** [os.stat(path)] *)
Definition stat (path : string) : M file := fun s =>
  match files s !! path with
  | Some f => (Ret f, s)
  | None => (Raise (FileNotFoundError path), s)
  end.

(** [os.utime(path, (atime, mtime))] *)
Definition utime (path : string) (atime mtime : Z) : M unit := fun s =>
  match files s !! path with
  | Some f =>
      (Ret tt,
       set_files s
         (<[path := mkFile (f_data f) (inject_Z mtime) (inject_Z atime)]>
            (files s)))
  | None => (Raise (FileNotFoundError path), s)
  end.

(** [open(path, 'rt')] and reading all of it *)
Definition open_read (path : string) : M string := fun s =>
  match files s !! path with
  | Some f => (Ret (f_data f), s)
  | None => (Raise (FileNotFoundError path), s)
  end.

(** [open(path, 'wt')] or [open(path, 'wb')]: the file is created, or
    emptied when it exists; its directory has to be there. *)
Definition open_write (w : World) (path : string) : M unit := fun s =>
  if dir_exists s (Path.dirname path)
  then
    let atime := match files s !! path with
                 | Some f => st_atime f
                 | None => now w
                 end in
    (Ret tt, set_files s (<[path := mkFile EmptyString (now w) atime]> (files s)))
  else (Raise (FileNotFoundError path), s).

(** [f.write(data)] on the file opened at [path] *)
Definition write (w : World) (path data : string) : M unit := fun s =>
  match files s !! path with
  | Some f =>
      (Ret tt,
       set_files s
         (<[path := mkFile (f_data f ++ data) (now w) (st_atime f)]> (files s)))
  | None => (Ret tt, s)
  end.

End OS.

(** ** More of Python's [str] and [re], for the branch resolver *)

Module PyText.

Definition dquote : string := String (ascii_of_nat 34) EmptyString.
Definition newline : ascii := ascii_of_nat 10.
Definition carriage_return : ascii := ascii_of_nat 13.

(** [c.isspace()], for a code point below 256 *)
Definition is_space (c : ascii) : bool :=
  let n := nat_of_ascii c in
  ((9 <=? n)%nat && (n <=? 13)%nat) || ((28 <=? n)%nat && (n <=? 32)%nat)
  || (n =? 133)%nat || (n =? 160)%nat.

Fixpoint lstrip (s : string) : string :=
  match s with
  | String c r => if is_space c then lstrip r else s
  | EmptyString => EmptyString
  end.

Fixpoint rstrip (s : string) : string :=
  match s with
  | EmptyString => EmptyString
  | String c r =>
      match rstrip r with
      | EmptyString => if is_space c then EmptyString else String c EmptyString
      | r' => String c r'
      end
  end.

Definition strip (s : string) : string := rstrip (lstrip s).

(** [f.readline()] at the start of a file opened in text mode: the first
    line with its end, which universal newlines turn into ['\n']. *)
Fixpoint readline (s : string) : string :=
  match s with
  | EmptyString => EmptyString
  | String c r =>
      if Ascii.eqb c newline || Ascii.eqb c carriage_return
      then String newline EmptyString
      else String c (readline r)
  end.

(** The characters [re.escape] puts a backslash before (Python 3.7 and
    later). *)
Definition re_special (c : ascii) : bool :=
  existsb (Ascii.eqb c) (list_ascii_of_string "()[]{}?*+-|^$\.&~# ")
  || let n := nat_of_ascii c in (9 <=? n)%nat && (n <=? 13)%nat.

Fixpoint re_escape (s : string) : string :=
  match s with
  | EmptyString => EmptyString
  | String c r =>
      if re_special c then String "\" (String c (re_escape r))
      else String c (re_escape r)
  end.

(** [f'{branch}'] for a value that is a [str] or [None] *)
Definition fmt_opt (b : option string) : string :=
  match b with Some s => s | None => "None" end.

End PyText.

(** ** class Exploit *)

(** One record of the feed: the keys of [data] the program reads, each a
    string. *)
Record RepoData : Type := mkRepoData {
  full_name : string;
  owner_login : string;
  name : string;
  html_url : string;
  updated_at_text : string
}.

Record Exploit : Type := mkExploit { cve : CVE; data : RepoData }.

Definition Exploit_str (x : Exploit) : string :=
  CVE_str (cve x) ++ ": " ++ full_name (data x).

Definition login (x : Exploit) : string := owner_login (data x).

Definition url (x : Exploit) : string := html_url (data x).

Definition output_file (x : Exploit) : string :=
  Path.join (py_str (year (cve x))) [CVE_str (cve x); login x ++ ".zip"].

Definition updated_at (w : World) (x : Exploit) : M Z :=
  match strptime_s w (updated_at_text (data x)) with
  | Some t => mret t
  | None => raise (ValueError (updated_at_text (data x)))
  end.

(** [requests.get(url)] and [requests.get(url, stream=True)].  Without
    [stream] the body is read before [get] returns, so a transfer that
    breaks raises there. *)
Definition requests_get (w : World) (url : string) (stream : bool)
    : M response := fun s =>
  let s' := add_request s url in
  match http_get w (List.length (requests s)) url with
  | None => (Raise (RequestException url), s')
  | Some r =>
      if negb stream && broken r then (Raise (RequestException url), s')
      else (Ret r, s')
  end.

Definition branch_pattern (x : Exploit) : string :=
  "\bhref=" ++ PyText.dquote ++ "/" ++ PyText.re_escape (login x) ++ "/"
  ++ name (data x) ++ "/commits/(?P<branch>[^/" ++ PyText.dquote ++ "]+)"
  ++ PyText.dquote.

Definition get_branch_name_from_github (w : World) (x : Exploit)
    : M (option string) :=
  r ← requests_get w (url x) false;
  match re_search w (branch_pattern x) (text r) with
  | ReInvalid => raise (ReError (branch_pattern x))
  | ReMatch branch => mret branch
  | ReNoMatch =>
      if PyStr.contains "This repository is empty." (text r)
      then raise (EmptyRepository (url x))
      else raise (RuntimeError (url x))
  end.

Definition cached_branchname (x : Exploit) : string :=
  Path.join (Path.dirname (output_file x)) ["." ++ login x ++ ".branch"].

Definition get_branch_name (w : World) (x : Exploit) : M (option string) :=
  try_except
    (content ← OS.open_read (cached_branchname x);
     mret (Some (PyText.strip (PyText.readline content))))
    is_FileNotFoundError
    (fun _ =>
       branch ← get_branch_name_from_github w x;
       OS.open_write w (cached_branchname x);;
       OS.write w (cached_branchname x)
         (PyText.fmt_opt branch ++ String PyText.newline EmptyString);;
       mret branch).

Definition archive_url (x : Exploit) (branch : option string) : string :=
  url x ++ "/archive/refs/heads/" ++ PyText.fmt_opt branch ++ ".zip".

(** [for chunk in r.iter_content(8192): f.write(chunk)] *)
Fixpoint write_chunks (w : World) (path : string) (cs : list string)
    : M unit :=
  match cs with
  | [] => mret tt
  | c :: rest => OS.write w path c;; write_chunks w path rest
  end.

Definition iter_content_into (w : World) (path : string) (u : string)
    (r : response) : M unit :=
  write_chunks w path (chunks r);;
  if broken r then raise (RequestException u) else mret tt.

Definition placeholder : string := "Empty repository".

(** The [try] ... [except EmptyRepository] statement of [download_zip]. *)
Definition fetch_archive (w : World) (x : Exploit) (output_file : string)
    : M unit :=
  try_except
    (branch ← get_branch_name w x;
     r ← requests_get w (archive_url x branch) true;
     OS.open_write w output_file;;
     iter_content_into w output_file (archive_url x branch) r)
    is_EmptyRepository
    (fun _ =>
       OS.open_write w output_file;;
       OS.write w output_file placeholder).

Definition download_zip (w : World) (x : Exploit) (output_file : string)
    : M unit :=
  fetch_archive w x output_file;;
  atime ← updated_at w x;
  mtime ← updated_at w x;
  OS.utime output_file atime mtime.

(** The [try] block of [refresh_zip] that sets [should_download]. *)
Definition should_download (w : World) (x : Exploit) : M bool :=
  try_except
    (st ← OS.stat (output_file x);
     t ← updated_at w x;
     mret (Qltb (st_mtime st) (inject_Z t)))
    is_FileNotFoundError
    (fun _ => mret true).

Definition refresh_zip (w : World) (x : Exploit) : M unit :=
  OS.makedirs (Path.dirname (output_file x));;
  should_download w x ≫= fun b : bool =>
  if b then download_zip w x (output_file x) else mret tt.

(** ** main *)

Definition logger (r : log_record) : M unit := fun s => (Ret tt, add_log s r).

(** The body of the loop of [main] over [pocs]. *)
Definition sync_one (w : World) (poc : Exploit) : M unit :=
  try_except (refresh_zip w poc) (fun _ : exn => true)
    (fun e =>
       if is_EmptyRepository e then logger (LogDebugEmpty (url poc))
       else logger (LogErrorFetch (Exploit_str poc) e)).

(** The loop itself; the progress bar only iterates. *)
Fixpoint sync_pocs (w : World) (pocs : list Exploit) : M unit :=
  match pocs with
  | [] => mret tt
  | poc :: rest => sync_one w poc;; sync_pocs w rest
  end.

(** What the first half of [main] reads: whether [chdir] and
    [setup_pocs_metadata] go through, the files [collect_jsons] yields, each
    with what [json.load] makes of it ([None] when it raises), and whether
    [os.chdir(args.pocs_dir)] goes through. *)
Record Feed : Type := mkFeed {
  setup_ok : bool;
  json_files : list (string * option (list RepoData));
  pocs_dir_ok : bool
}.

Fixpoint load_pocs (fs : list (string * option (list RepoData)))
    : outcome (list Exploit) :=
  match fs with
  | [] => Ret []
  | (filename, content) :: rest =>
      match fromstr (Path.basename filename) with
      | Raise e => Raise e
      | Ret c =>
          match content with
          | None => Raise (ValueError filename)
          | Some records =>
              match load_pocs rest with
              | Raise e => Raise e
              | Ret pocs => Ret (List.map (mkExploit c) records ++ pocs)%list
              end
          end
      end
  end.

(** [main], returning the exit status. *)
Definition main (w : World) (feed : Feed) : M Z :=
  try_except
    ((if setup_ok feed then mret tt else raise (OSError "setup"));;
     pocs ← lift (load_pocs (json_files feed));
     (if pocs_dir_ok feed then mret tt else raise (FileNotFoundError "pocs"));;
     logger (LogInfoCount (List.length pocs));;
     sync_pocs w pocs;;
     mret 0)
    (fun _ : exn => true)
    (fun e => logger (LogErrorTop e);; mret 1).

(** ** The identifier pattern, in the words of the specification *)

(** [s] begins with [CVE-<digits>-<digits>]. *)
Definition cve_pattern_at_start (s : string) : Prop :=
  exists y i rest : string,
    s = "CVE-" ++ y ++ "-" ++ i ++ rest
    /\ y <> EmptyString /\ i <> EmptyString
    /\ PyStr.all_digits y = true /\ PyStr.all_digits i = true.

(** [CVE-<digits>-<digits>] occurs somewhere in [s]. *)
Definition cve_pattern_anywhere (s : string) : Prop :=
  exists before rest : string, s = before ++ rest /\ cve_pattern_at_start rest.

(** ** Notions the statements and proofs use *)

Definition no_leading_digit (s : string) : Prop :=
  match s with
  | String c _ => PyStr.is_digit c = false
  | EmptyString => True
  end.

Fixpoint has_sep (s : string) : bool :=
  match s with
  | EmptyString => false
  | String c r => Ascii.eqb c Path.sep || has_sep r
  end.

Fixpoint last_char (s : string) : option ascii :=
  match s with
  | EmptyString => None
  | String c EmptyString => Some c
  | String _ r => last_char r
  end.

(** The state a computation leaves, whatever its outcome. *)
Definition state_after {A : Type} (m : M A) (s : State) : State := snd (m s).

(** [m] leaves the observation [f] of the state as it was. *)
Definition preserves {A B : Type} (f : State -> B) (m : M A) : Prop :=
  forall s, f (state_after m s) = f s.

(** [m] only adds to the list of requests. *)
Definition grows {A : Type} (m : M A) : Prop :=
  forall s, exists l, requests (state_after m s) = (requests s ++ l)%list.

(** The directories [refresh_zip] makes sure of. *)
Definition archive_dirs (x : Exploit) : gset string :=
  let d := Path.dirname (output_file x) in
  list_to_set (Path.chain (String.length d) d).

(** The number a string of decimal digits stands for; [None] when it has
    another character. *)
Definition digits_value (s : string) : option N :=
  option_map N.of_uint (NilEmpty.uint_of_string s).

(** A branch name that the sidecar gives back as it is: one line, with no
    white space at either end. *)
Fixpoint one_line (s : string) : bool :=
  match s with
  | EmptyString => true
  | String c r =>
      negb (Ascii.eqb c PyText.newline || Ascii.eqb c PyText.carriage_return)
      && one_line r
  end.

Definition clean_name (b : string) : bool :=
  one_line b
  && match b with String c _ => negb (PyText.is_space c) | EmptyString => true end
  && match last_char b with Some c => negb (PyText.is_space c) | None => true end.

(** [m] removes no file. *)
Definition keeps_files {A : Type} (m : M A) : Prop :=
  forall s p, is_Some (files s !! p) -> is_Some (files (state_after m s) !! p).

(** A file of the feed that [main] can load: its name begins with the
    pattern and its content is read. *)
Definition feed_file_ok (nc : string * option (list RepoData)) : Prop :=
  cve_pattern_at_start (Path.basename (fst nc)) /\ snd nc <> None.

(** An identifier as [CVE.fromstr] makes them: two strings of digits. *)
Definition parsed_cve (c : CVE) : Prop :=
  exists y i : string,
    c = mkCVE (PyStr y) (PyStr i)
    /\ y <> EmptyString /\ i <> EmptyString
    /\ PyStr.all_digits y = true /\ PyStr.all_digits i = true.

(** ** Sample data: the scenario of the specification, and variations *)

Module Sample.

Definition repo (owner : string) : RepoData :=
  mkRepoData (owner ++ "/rpc-leak") owner "rpc-leak"
    ("https://github.com/" ++ owner ++ "/rpc-leak") "2021-07-01T12:00:00Z".

(** The identifier as [main] builds it, from the name of the feed file. *)
Definition cve_34527 : CVE := mkCVE (PyStr "2021") (PyStr "34527").

Definition acme : Exploit := mkExploit cve_34527 (repo "acme").
Definition bolt : Exploit := mkExploit cve_34527 (repo "bolt").
Definition cato : Exploit := mkExploit cve_34527 (repo "cato").

(** [acme] again, as the feed has it after a later push. *)
Definition acme_later : Exploit :=
  mkExploit cve_34527
    (mkRepoData "acme/rpc-leak" "acme" "rpc-leak"
       "https://github.com/acme/rpc-leak" "2022-01-01T00:00:00Z").

Definition epoch (s : string) : option Z :=
  if String.eqb s "2021-07-01T12:00:00Z" then Some 1625140800
  else if String.eqb s "2022-01-01T00:00:00Z" then Some 1640995200
  else None.

Definition engine (pattern page : string) : re_result :=
  if PyStr.contains "/commits/main" page then ReMatch (Some "main")
  else ReNoMatch.

Definition clock : Q := inject_Z 1700000000.

Definition is_archive (u : string) : bool :=
  PyStr.contains "/archive/refs/heads/" u.

Definition landing_page : response :=
  mkResponse 200 ["<a href=/rpc-leak/commits/main>"] false.

(** Every repository has a branch [main] and a two-chunk archive. *)
Definition online : World :=
  mkWorld (fun _ u => Some (if is_archive u
                            then mkResponse 200 ["PK"; "zip"] false
                            else landing_page))
          engine epoch clock.

(** Every repository is empty. *)
Definition empty_repo : World :=
  mkWorld (fun _ u => Some (mkResponse 200 ["This repository is empty."] false))
          engine epoch clock.

(** Every archive breaks after its first chunk. *)
Definition flaky : World :=
  mkWorld (fun _ u => Some (if is_archive u
                            then mkResponse 200 ["PK"] true
                            else landing_page))
          engine epoch clock.

(** Every archive is answered by an error page. *)
Definition not_found : World :=
  mkWorld (fun _ u => Some (if is_archive u
                            then mkResponse 404 ["404: Not Found"] false
                            else landing_page))
          engine epoch clock.


Definition blank : State := mkState ∅ ∅ [] [].

(** The archive directory is there, nothing else. *)
Definition ready : State :=
  state_after (OS.makedirs (Path.dirname (output_file acme))) blank.

(** After a first complete run for [acme]. *)
Definition synced : State := state_after (refresh_zip online acme) blank.

(** An archive from an earlier time, and the sidecar. *)
Definition stale : State :=
  set_files synced
    (<[output_file acme := mkFile "OLD ARCHIVE" (inject_Z 1600000000)
                             (inject_Z 1600000000)]> (files synced)).


Definition feed : Feed :=
  mkFeed true
    [("./2021/CVE-2021-34527.json", Some [repo "acme"; repo "bolt"; repo "cato"])]
    true.

End Sample.

(** * Theorems *)

(** ** Strings *)

Section StringFacts.

Import PyStr.

Lemma strip_prefix_app (p s : string) : strip_prefix p (p ++ s) = Some s.
Proof.
  induction p as [|a p IH]; simpl; [reflexivity|].
  now rewrite Ascii.eqb_refl.
Qed.

Lemma strip_prefix_Some (p s r : string) :
  strip_prefix p s = Some r -> s = p ++ r.
Proof.
  revert s; induction p as [|a p IH]; intros s; simpl.
  - now intros [= ->].
  - destruct s as [|b s]; [discriminate|].
    destruct (Ascii.eqb_spec a b) as [->|]; [|discriminate].
    intros H; now rewrite (IH _ H).
Qed.

Lemma span_digits_spec (s : string) :
  s = fst (span_digits s) ++ snd (span_digits s)
  /\ all_digits (fst (span_digits s)) = true
  /\ no_leading_digit (snd (span_digits s)).
Proof.
  induction s as [|c s (IH1 & IH2 & IH3)]; simpl; [easy|].
  destruct (is_digit c) eqn:Hc; simpl; [|easy].
  destruct (span_digits s) as [d t]; simpl in *.
  rewrite Hc, IH2; repeat split; [congruence | assumption].
Qed.

Lemma span_digits_app (d t : string) :
  all_digits d = true ->
  span_digits (d ++ t)
  = (d ++ fst (span_digits t), snd (span_digits t)).
Proof.
  induction d as [|c d IH]; simpl.
  - intros _; now destruct (span_digits t).
  - intros [Hc Hd]%andb_prop. rewrite Hc, (IH Hd); reflexivity.
Qed.

Lemma span_digits_stop (t : string) :
  no_leading_digit t -> span_digits t = (EmptyString, t).
Proof. destruct t as [|c t]; simpl; [easy|]; now intros ->. Qed.

Lemma append_empty_r (s : string) : s ++ EmptyString = s.
Proof. induction s; simpl; congruence. Qed.

Lemma append_assoc (a b c : string) : (a ++ b) ++ c = a ++ b ++ c.
Proof. induction a; simpl; congruence. Qed.

Lemma append_nonempty_l (a b : string) :
  a <> EmptyString -> a ++ b <> EmptyString.
Proof. destruct a; simpl; [easy | discriminate]. Qed.

Lemma all_digits_app (a b : string) :
  all_digits (a ++ b) = all_digits a && all_digits b.
Proof.
  induction a as [|c a IH]; simpl; [reflexivity|].
  now rewrite IH, andb_assoc.
Qed.

Lemma all_digits_zeros (n : nat) : all_digits (zeros n) = true.
Proof. induction n; simpl; auto. Qed.

Lemma all_digits_uint (d : Decimal.uint) :
  all_digits (NilEmpty.string_of_uint d) = true.
Proof. induction d; simpl; auto. Qed.

Lemma str_int_digits (z : Z) :
  0 <= z -> all_digits (str_int z) = true /\ str_int z <> EmptyString.
Proof.
  intros Hz. destruct z as [|p|p]; [now split | | lia].
  unfold str_int; simpl.
  pose proof (Unsigned.to_uint_nonnil p) as Hnil.
  destruct (Pos.to_uint p) eqn:E; try congruence;
    (split; [apply (all_digits_uint (_ u)) | discriminate]).
Qed.

Lemma format_04_int_digits (z : Z) :
  0 <= z ->
  all_digits (format_04_int z) = true /\ format_04_int z <> EmptyString.
Proof.
  intros Hz. unfold format_04_int.
  destruct (Z.ltb_spec z 0) as [|_]; [lia|].
  destruct (str_int_digits z Hz) as [Hd Hne].
  split.
  - now rewrite all_digits_app, all_digits_zeros, Hd.
  - destruct (str_int z); [easy|].
    destruct (zeros _); discriminate.
Qed.

End StringFacts.

(** ** The identifier parser *)

Section Identifier.

Import PyStr.

(** What the pattern captures in a string that begins with it. *)
Lemma cve_re_search_at_start (y i rest : string) :
  y <> EmptyString -> i <> EmptyString ->
  all_digits y = true -> all_digits i = true ->
  cve_re_search ("CVE-" ++ y ++ "-" ++ i ++ rest)
  = Some (y, i ++ fst (span_digits rest)).
Proof.
  intros Hy Hi Dy Di. unfold cve_re_search.
  rewrite strip_prefix_app, (span_digits_app y _ Dy).
  rewrite (span_digits_stop ("-" ++ _)) by reflexivity.
  cbn [fst snd]. rewrite append_empty_r.
  destruct y as [|c y]; [easy|]. cbn [append].
  rewrite (span_digits_app i _ Di).
  destruct i as [|c' i]; [easy|]. reflexivity.
Qed.

Lemma cve_re_search_Some (s y i : string) :
  cve_re_search s = Some (y, i) -> cve_pattern_at_start s.
Proof.
  unfold cve_re_search.
  destruct (strip_prefix "CVE-" s) as [r1|] eqn:E1; [|discriminate].
  apply strip_prefix_Some in E1.
  destruct (span_digits_spec r1) as (A1 & A2 & _).
  destruct (span_digits r1) as [y' r2]; cbn [fst snd] in *.
  destruct y' as [|c y']; [discriminate|].
  destruct r2 as [|m r3]; [discriminate|].
  destruct (Ascii.eqb_spec m "-") as [->|Hm].
  2:{ destruct m as [[] [] [] [] [] [] [] []]; try discriminate. easy. }
  destruct (span_digits_spec r3) as (B1 & B2 & _).
  destruct (span_digits r3) as [i' r4]; cbn [fst snd] in *.
  destruct i' as [|c' i']; [discriminate|]. intros _.
  exists (String c y'), (String c' i'), r4.
  repeat split; try easy. now rewrite E1, A1, B1 at 1.
Qed.

End Identifier.

(** C8, as the claim has it, fails: the pattern occurs in this string, one
    character in, and [CVE.fromstr] raises all the same. *)
Lemma fromstr_rejects_pattern_inside :
  cve_pattern_anywhere "xCVE-2021-0001"
  /\ fromstr "xCVE-2021-0001" = Raise (ValueError "xCVE-2021-0001").
Proof.
  split; [|reflexivity].
  exists "x", "CVE-2021-0001"; split; [reflexivity|].
  exists "2021", "0001", EmptyString. repeat split; discriminate.
Qed.

(** C8, amended: [CVE.fromstr] raises its [ValueError] exactly when the
    string does not begin with [CVE-<digits>-<digits>]; whatever follows
    the pattern is tolerated, whatever precedes it is not. *)
Theorem fromstr_raises_iff_not_at_start (s : string) :
  (fromstr s = Raise (ValueError s) <-> ~ cve_pattern_at_start s)
  /\ (forall e, fromstr s = Raise e -> e = ValueError s).
Proof.
  unfold fromstr. split.
  - split.
    + intros H (y & i & rest & -> & Hy & Hi & Dy & Di).
      rewrite (cve_re_search_at_start y i rest Hy Hi Dy Di) in H.
      discriminate.
    + intros H. destruct (cve_re_search s) as [[y i]|] eqn:E; [|reflexivity].
      exfalso; apply H. exact (cve_re_search_Some s y i E).
  - intros e. destruct (cve_re_search s) as [[y i]|]; congruence.
Qed.

Lemma fromstr_raises_iff_not_at_start_witness :
  fromstr "2021-34527.json" = Raise (ValueError "2021-34527.json")
  /\ ~ cve_pattern_at_start "2021-34527.json".
Proof.
  assert (H : fromstr "2021-34527.json" = Raise (ValueError "2021-34527.json"))
    by reflexivity.
  split; [exact H|].
  exact (proj1 (proj1 (fromstr_raises_iff_not_at_start "2021-34527.json")) H).
Defined.

(** C1: for a valid identifier held as integers, parsing its canonical text
    succeeds, but the identifier it yields holds the two digit strings, so
    it is not equal to the original on [(year, id)]. *)
Theorem fromstr_str_not_equal (y i : Z) :
  0 <= y -> 0 <= i ->
  fromstr (CVE_str (mkCVE (PyInt y) (PyInt i)))
  = Ret (mkCVE (PyStr (PyStr.str_int y)) (PyStr (PyStr.format_04_int i)))
  /\ CVE_eq (mkCVE (PyStr (PyStr.str_int y)) (PyStr (PyStr.format_04_int i)))
            (mkCVE (PyInt y) (PyInt i)) = false.
Proof.
  intros Hy Hi. split; [|reflexivity].
  destruct (str_int_digits y Hy) as [Dy Ny].
  destruct (format_04_int_digits i Hi) as [Di Ni].
  unfold fromstr, CVE_str; cbn [year id py_str py_format_04].
  pose proof (cve_re_search_at_start _ _ EmptyString Ny Ni Dy Di) as H.
  cbn [PyStr.span_digits fst] in H.
  rewrite !append_empty_r in H. now rewrite H.
Qed.

Lemma fromstr_str_not_equal_witness :
  fromstr (CVE_str (mkCVE (PyInt 2021) (PyInt 34527)))
  = Ret (mkCVE (PyStr "2021") (PyStr "34527"))
  /\ CVE_eq (mkCVE (PyStr "2021") (PyStr "34527"))
            (mkCVE (PyInt 2021) (PyInt 34527)) = false.
Proof. apply (fromstr_str_not_equal 2021 34527); lia. Defined.

(** ** Paths *)

Section PathFacts.

Import Path.

Lemma has_sep_app (a b : string) : has_sep (a ++ b) = has_sep a || has_sep b.
Proof.
  induction a as [|c a IH]; simpl; [reflexivity|].
  now rewrite IH, orb_assoc.
Qed.

Lemma endswith_sep_has_sep (p : string) :
  endswith_sep p = true -> has_sep p = true.
Proof.
  induction p as [|c p IH]; simpl; [discriminate|].
  destruct p as [|c' p]; [now intros -> |].
  intros H; rewrite (IH H); apply orb_true_r.
Qed.

Lemma startswith_sep_has_sep (b : string) :
  PyStr.startswith b "/" = true -> has_sep b = true.
Proof.
  destruct b as [|c b]; [discriminate|].
  unfold PyStr.startswith; cbn [PyStr.strip_prefix has_sep].
  rewrite (Ascii.eqb_sym "/" c). fold sep.
  now destruct (Ascii.eqb c sep).
Qed.

Lemma rsplit_head_nonempty (p : string) :
  has_sep p = true -> fst (rsplit p) <> EmptyString.
Proof.
  induction p as [|c p IH]; simpl; [discriminate|].
  destruct (rsplit p) as [h t]; simpl in *.
  destruct h as [|c' h]; [|discriminate].
  destruct (Ascii.eqb c sep); simpl; [discriminate|].
  intros H; now apply IH in H.
Qed.

Lemma rstrip_sep_empty (h : string) :
  rstrip_sep h = EmptyString -> all_sep h = true.
Proof.
  induction h as [|c h IH]; simpl; [reflexivity|].
  destruct (rstrip_sep h); [|discriminate].
  destruct (Ascii.eqb c sep); [now rewrite IH | discriminate].
Qed.

Lemma dirname_nonempty (p : string) :
  has_sep p = true -> dirname p <> EmptyString.
Proof.
  intros H%rsplit_head_nonempty. unfold dirname.
  destruct (fst (rsplit p)) as [|c h] eqn:E; [easy|].
  destruct (all_sep (String c h)) eqn:A; [discriminate|].
  intros R%rstrip_sep_empty; congruence.
Qed.

Lemma join2_has_sep (path b : string) :
  path <> EmptyString -> has_sep (join2 path b) = true.
Proof.
  intros Hp. unfold join2.
  destruct (PyStr.startswith b "/") eqn:S.
  - now apply startswith_sep_has_sep.
  - destruct path as [|c path]; [easy|].
    destruct (endswith_sep (String c path)) eqn:E.
    + rewrite has_sep_app, (endswith_sep_has_sep _ E); reflexivity.
    + rewrite !has_sep_app; simpl. apply orb_true_r.
Qed.

Lemma join2_nonempty (path b : string) :
  b <> EmptyString -> join2 path b <> EmptyString.
Proof.
  intros Hb. unfold join2.
  destruct (PyStr.startswith b "/"); [assumption|].
  destruct path as [|c path]; [assumption|].
  destruct (endswith_sep (String c path)); discriminate.
Qed.

Lemma last_char_app (a b : string) :
  b <> EmptyString -> last_char (a ++ b) = last_char b.
Proof.
  intros Hb. induction a as [|c a IH]; simpl; [reflexivity|].
  rewrite IH. destruct (a ++ b) eqn:E; [|reflexivity].
  destruct a; simpl in E; [easy | discriminate].
Qed.

Lemma last_char_join2 (path b : string) :
  b <> EmptyString -> last_char (join2 path b) = last_char b.
Proof.
  intros Hb. unfold join2.
  destruct (PyStr.startswith b "/"); [reflexivity|].
  destruct path as [|c path]; [reflexivity|].
  destruct (endswith_sep (String c path)).
  - now apply last_char_app.
  - rewrite last_char_app by discriminate.
    now apply (last_char_app "/").
Qed.

Lemma output_file_has_sep (x : Exploit) : has_sep (output_file x) = true.
Proof.
  unfold output_file, join; simpl.
  apply join2_has_sep, join2_nonempty. discriminate.
Qed.

Lemma output_file_dirname (x : Exploit) :
  dirname (output_file x) <> EmptyString.
Proof. apply dirname_nonempty, output_file_has_sep. Qed.

Lemma append_nonempty_r (a b : string) :
  b <> EmptyString -> a ++ b <> EmptyString.
Proof. destruct a; simpl; [easy | discriminate]. Qed.

Lemma output_file_last (x : Exploit) :
  last_char (output_file x) = Some "p"%char.
Proof.
  unfold output_file, join; simpl.
  rewrite last_char_join2 by (apply append_nonempty_r; discriminate).
  now rewrite last_char_app.
Qed.

Lemma cached_branchname_last (x : Exploit) :
  last_char (cached_branchname x) = Some "h"%char.
Proof.
  unfold cached_branchname, join; simpl.
  rewrite last_char_join2 by discriminate.
  change (String "." (login x ++ ".branch"))
    with (String "." (login x) ++ ".branch").
  now rewrite last_char_app.
Qed.

Lemma cached_branchname_ne_output_file (x : Exploit) :
  cached_branchname x <> output_file x.
Proof.
  intros E. pose proof (cached_branchname_last x) as H.
  rewrite E, output_file_last in H. discriminate.
Qed.

End PathFacts.

(** ** The monad and the primitive operations *)

Ltac unfold_M :=
  unfold mbind, M_bind, mret, M_ret, raise, lift, try_except, state_after in *.

Section Effects.

Context {A B : Type}.

Lemma bind_Ret (m : M A) (k : A -> M B) s a s' :
  m s = (Ret a, s') -> (m ≫= k) s = k a s'.
Proof. unfold_M. now intros ->. Qed.

Lemma bind_Raise (m : M A) (k : A -> M B) s e s' :
  m s = (Raise e, s') -> (m ≫= k) s = (Raise e, s').
Proof. unfold_M. now intros ->. Qed.

Lemma state_after_bind (m : M A) (k : A -> M B) s :
  state_after (m ≫= k) s
  = match m s with
    | (Ret a, s') => state_after (k a) s'
    | (Raise _, s') => s'
    end.
Proof. unfold_M. now destruct (m s) as [[a|e] s']. Qed.

Lemma state_after_try (m : M A) (h : exn -> bool) (hd : exn -> M A) s :
  state_after (try_except m h hd) s
  = match m s with
    | (Ret _, s') => s'
    | (Raise e, s') => if h e then state_after (hd e) s' else s'
    end.
Proof. unfold_M. destruct (m s) as [[a|e] s']; [|destruct (h e)]; easy. Qed.

Context {C : Type} (f : State -> C).

Lemma preserves_ret (a : A) : preserves f (mret a : M A).
Proof. easy. Qed.

Lemma preserves_raise (e : exn) : preserves f (raise e : M A).
Proof. easy. Qed.

Lemma preserves_bind (m : M A) (k : A -> M B) :
  preserves f m -> (forall a, preserves f (k a)) -> preserves f (m ≫= k).
Proof.
  intros Hm Hk s. rewrite state_after_bind.
  specialize (Hm s). unfold state_after in Hm.
  destruct (m s) as [[a|e] s']; simpl in Hm; [|assumption].
  now rewrite Hk.
Qed.

Lemma preserves_try (m : M A) (h : exn -> bool) (hd : exn -> M A) :
  preserves f m -> (forall e, preserves f (hd e)) ->
  preserves f (try_except m h hd).
Proof.
  intros Hm Hh s. rewrite state_after_try.
  specialize (Hm s). unfold state_after in Hm.
  destruct (m s) as [[a|e] s']; simpl in Hm; [assumption|].
  destruct (h e); [now rewrite Hh | assumption].
Qed.

Lemma grows_ret (a : A) : grows (mret a : M A).
Proof. intros s; exists []; unfold_M; simpl. now rewrite app_nil_r. Qed.

Lemma grows_raise (e : exn) : grows (raise e : M A).
Proof. intros s; exists []; unfold_M; simpl. now rewrite app_nil_r. Qed.

Lemma grows_preserves (m : M A) : preserves requests m -> grows m.
Proof. intros H s; exists []. now rewrite H, app_nil_r. Qed.

Lemma grows_bind (m : M A) (k : A -> M B) :
  grows m -> (forall a, grows (k a)) -> grows (m ≫= k).
Proof.
  intros Hm Hk s. rewrite state_after_bind.
  destruct (Hm s) as [l Hl]. unfold state_after in Hl.
  destruct (m s) as [[a|e] s']; simpl in Hl; [|now exists l].
  destruct (Hk a s') as [l' Hl']. exists (l ++ l')%list.
  now rewrite Hl', Hl, <- app_assoc.
Qed.

Lemma grows_try (m : M A) (h : exn -> bool) (hd : exn -> M A) :
  grows m -> (forall e, grows (hd e)) -> grows (try_except m h hd).
Proof.
  intros Hm Hh s. rewrite state_after_try.
  destruct (Hm s) as [l Hl]. unfold state_after in Hl.
  destruct (m s) as [[a|e] s']; simpl in Hl; [now exists l|].
  destruct (h e); [|now exists l].
  destruct (Hh e s') as [l' Hl']. exists (l ++ l')%list.
  now rewrite Hl', Hl, <- app_assoc.
Qed.

End Effects.

Section Primitives.

Variable w : World.

Lemma Qltb_lt (a b : Q) : Qltb a b = true <-> (a < b)%Q.
Proof.
  unfold Qltb. rewrite negb_true_iff, <- not_true_iff_false, Qle_bool_iff.
  split; [apply Qnot_le_lt | apply Qlt_not_le].
Qed.

Lemma Qltb_irrefl (a : Q) : Qltb a a = false.
Proof.
  apply not_true_iff_false. rewrite Qltb_lt. apply Qlt_irrefl.
Qed.

Lemma updated_at_run (x : Exploit) (s : State) :
  updated_at w x s
  = (match strptime_s w (updated_at_text (data x)) with
     | Some t => Ret t
     | None => Raise (ValueError (updated_at_text (data x)))
     end, s).
Proof. unfold updated_at. now destruct (strptime_s w _). Qed.

Lemma state_after_updated_at (x : Exploit) (s : State) :
  state_after (updated_at w x) s = s.
Proof. unfold state_after. now rewrite updated_at_run. Qed.

Lemma state_after_requests_get (u : string) (st : bool) (s : State) :
  state_after (requests_get w u st) s = add_request s u.
Proof.
  unfold state_after, requests_get.
  destruct (http_get w _ u) as [r|]; [|reflexivity].
  now destruct (negb st && broken r).
Qed.

Lemma state_after_stat (p : string) (s : State) : state_after (OS.stat p) s = s.
Proof. unfold state_after, OS.stat. now destruct (files s !! p). Qed.

Lemma state_after_open_read (p : string) (s : State) :
  state_after (OS.open_read p) s = s.
Proof. unfold state_after, OS.open_read. now destruct (files s !! p). Qed.

Lemma open_write_dirs (p : string) : preserves dirs (OS.open_write w p).
Proof.
  intros s. unfold state_after, OS.open_write.
  now destruct (OS.dir_exists s _).
Qed.

Lemma open_write_requests (p : string) : preserves requests (OS.open_write w p).
Proof.
  intros s. unfold state_after, OS.open_write.
  now destruct (OS.dir_exists s _).
Qed.

Lemma write_dirs (p d : string) : preserves dirs (OS.write w p d).
Proof. intros s. unfold state_after, OS.write. now destruct (files s !! p). Qed.

Lemma write_requests (p d : string) : preserves requests (OS.write w p d).
Proof. intros s. unfold state_after, OS.write. now destruct (files s !! p). Qed.

Lemma utime_dirs (p : string) (a m : Z) : preserves dirs (OS.utime p a m).
Proof. intros s. unfold state_after, OS.utime. now destruct (files s !! p). Qed.

Lemma utime_requests (p : string) (a m : Z) : preserves requests (OS.utime p a m).
Proof. intros s. unfold state_after, OS.utime. now destruct (files s !! p). Qed.

Lemma requests_get_dirs (u : string) (st : bool) :
  preserves dirs (requests_get w u st).
Proof. intros s. now rewrite state_after_requests_get. Qed.

Lemma requests_get_grows (u : string) (st : bool) : grows (requests_get w u st).
Proof. intros s. exists [u]. now rewrite state_after_requests_get. Qed.

Lemma write_chunks_dirs (p : string) (cs : list string) :
  preserves dirs (write_chunks w p cs).
Proof.
  induction cs as [|c cs IH]; simpl; [easy|].
  apply preserves_bind; [apply write_dirs | intros _; exact IH].
Qed.

Lemma write_chunks_requests (p : string) (cs : list string) :
  preserves requests (write_chunks w p cs).
Proof.
  induction cs as [|c cs IH]; simpl; [easy|].
  apply preserves_bind; [apply write_requests | intros _; exact IH].
Qed.

End Primitives.

(** ** Branch resolution *)

Section Resolver.

Variables (w : World) (x : Exploit).

Lemma state_after_github (s : State) :
  state_after (get_branch_name_from_github w x) s = add_request s (url x).
Proof.
  unfold get_branch_name_from_github. rewrite state_after_bind.
  pose proof (state_after_requests_get w (url x) false s) as H.
  unfold state_after in H.
  destruct (requests_get w (url x) false s) as [[r|e] s']; simpl in H;
    [|assumption].
  subst s'. destruct (re_search w _ _); try reflexivity.
  now destruct (PyStr.contains _ _).
Qed.

Lemma get_branch_name_hit (s : State) (f : file) :
  files s !! cached_branchname x = Some f ->
  get_branch_name w x s
  = (Ret (Some (PyText.strip (PyText.readline (f_data f)))), s).
Proof.
  intros H. unfold get_branch_name, OS.open_read. unfold_M. now rewrite H.
Qed.

Lemma get_branch_name_miss (s : State) :
  files s !! cached_branchname x = None ->
  get_branch_name w x s
  = (branch ← get_branch_name_from_github w x;
     OS.open_write w (cached_branchname x);;
     OS.write w (cached_branchname x)
       (PyText.fmt_opt branch ++ String PyText.newline EmptyString);;
     mret branch) s.
Proof.
  intros H. unfold get_branch_name, OS.open_read. unfold_M. now rewrite H.
Qed.

(** Resolution that ends in [EmptyRepository] found no sidecar, asked for
    the page once, and wrote nothing. *)
Lemma get_branch_name_EmptyRepository (s s0 : State) (u : string) :
  get_branch_name w x s = (Raise (EmptyRepository u), s0) ->
  files s !! cached_branchname x = None /\ s0 = add_request s (url x).
Proof.
  intros H.
  destruct (files s !! cached_branchname x) as [f|] eqn:E.
  { rewrite (get_branch_name_hit s f E) in H. discriminate. }
  split; [reflexivity|].
  rewrite (get_branch_name_miss s E) in H.
  pose proof (state_after_github s) as G. unfold state_after in G.
  revert H. unfold_M.
  destruct (get_branch_name_from_github w x s) as [[b|e] s1]; simpl in G;
    subst s1.
  - unfold OS.open_write.
    destruct (OS.dir_exists _ _); [|discriminate].
    unfold OS.write; simpl. rewrite lookup_insert_eq. discriminate.
  - now intros [= _ <-].
Qed.

Lemma get_branch_name_dirs : preserves dirs (get_branch_name w x).
Proof.
  unfold get_branch_name. apply preserves_try.
  - apply preserves_bind; [|easy].
    intros s. now rewrite state_after_open_read.
  - intros _. apply preserves_bind.
    + intros s. now rewrite state_after_github.
    + intros b. apply preserves_bind; [apply open_write_dirs|].
      intros _. apply preserves_bind; [apply write_dirs | easy].
Qed.

Lemma get_branch_name_grows : grows (get_branch_name w x).
Proof.
  unfold get_branch_name. apply grows_try.
  - apply grows_bind; [|intros; apply grows_ret].
    apply grows_preserves. intros s. now rewrite state_after_open_read.
  - intros _. apply grows_bind.
    + intros s. exists [url x]. now rewrite state_after_github.
    + intros b. apply grows_bind;
        [apply grows_preserves, open_write_requests|].
      intros _. apply grows_bind;
        [apply grows_preserves, write_requests | intros; apply grows_ret].
Qed.


(** A resolution that raises wrote no file. *)
Lemma get_branch_name_Raise_files (s s' : State) (e : exn) :
  get_branch_name w x s = (Raise e, s') -> files s' = files s.
Proof.
  intros H.
  destruct (files s !! cached_branchname x) as [f|] eqn:E.
  { rewrite (get_branch_name_hit s f E) in H. discriminate. }
  rewrite (get_branch_name_miss s E) in H.
  pose proof (state_after_github s) as G. unfold state_after in G.
  revert H. unfold_M.
  destruct (get_branch_name_from_github w x s) as [[b|e'] s1]; simpl in G;
    subst s1.
  - unfold OS.open_write.
    destruct (OS.dir_exists _ _); [|now intros [= _ <-]].
    unfold OS.write; simpl. rewrite lookup_insert_eq. discriminate.
  - now intros [= _ <-].
Qed.

End Resolver.

(** ** The archive fetch *)

Lemma State_eq (s s' : State) :
  files s = files s' -> dirs s = dirs s' -> requests s = requests s' ->
  log s = log s' -> s = s'.
Proof. destruct s, s'; simpl; now intros -> -> -> ->. Qed.

Lemma concat_cons (c : string) (cs : list string) :
  String.concat "" (c :: cs) = c ++ String.concat "" cs.
Proof. destruct cs; simpl; [now rewrite append_empty_r | reflexivity]. Qed.

Lemma run_try_bind {A B : Type} (m : M A) (k : A -> M B) h hd s :
  try_except (m ≫= k) h hd s
  = match m s with
    | (Ret a, s1) => try_except (k a) h hd s1
    | (Raise e, s1) => if h e then hd e s1 else (Raise e, s1)
    end.
Proof. unfold_M. now destruct (m s) as [[a|e] s1]. Qed.

Section Fetch.

Variables (w : World) (x : Exploit) (out : string).

(** Writing the chunks appends them, in order, to what the file holds. *)
Lemma write_chunks_run (cs : list string) (s : State) (f : file) :
  files s !! out = Some f -> st_mtime f = now w ->
  write_chunks w out cs s
  = (Ret tt,
     set_files s
       (<[out := mkFile (f_data f ++ String.concat "" cs) (now w) (st_atime f)]>
          (files s))).
Proof.
  revert s f. induction cs as [|c cs IH]; intros s f Hf Hm.
  - cbn. rewrite append_empty_r. f_equal.
    apply State_eq; try reflexivity. cbn. rewrite <- Hm.
    destruct f; cbn. now rewrite insert_id.
  - cbn [write_chunks]. unfold_M. unfold OS.write at 1. rewrite Hf.
    erewrite IH; [| cbn; apply lookup_insert_eq | reflexivity].
    rewrite concat_cons, <- append_assoc.
    unfold set_files; cbn [files dirs requests log f_data st_atime].
    now rewrite insert_insert_eq.
Qed.

Lemma open_write_run (s : State) :
  OS.dir_exists s (Path.dirname out) = true ->
  OS.open_write w out s
  = (Ret tt,
     set_files s
       (<[out := mkFile EmptyString (now w)
                   (match files s !! out with
                    | Some f => st_atime f
                    | None => now w
                    end)]> (files s))).
Proof. intros H. unfold OS.open_write. now rewrite H. Qed.

(** The steps of [fetch_archive] after the branch is known. *)
Lemma fetch_archive_resolved (s s1 : State) (b : option string) :
  get_branch_name w x s = (Ret b, s1) ->
  fetch_archive w x out s
  = (r ← requests_get w (archive_url x b) true;
     OS.open_write w out;;
     iter_content_into w out (archive_url x b) r) s1.
Proof.
  intros H. unfold fetch_archive. rewrite run_try_bind, H.
  unfold_M. unfold requests_get.
  destruct (http_get w _ _) as [r|]; [|reflexivity]. cbn [negb andb].
  unfold OS.open_write.
  destruct (OS.dir_exists _ _); [|reflexivity].
  unfold iter_content_into. unfold_M.
  erewrite write_chunks_run; [| apply lookup_insert_eq | reflexivity].
  now destruct (broken r).
Qed.

End Fetch.

Section FetchOutcomes.

Variables (w : World) (x : Exploit) (out : string).

Lemma iter_content_into_dirs (u : string) (r : response) :
  preserves dirs (iter_content_into w out u r).
Proof.
  apply preserves_bind; [apply write_chunks_dirs|].
  intros _. now destruct (broken r).
Qed.

Lemma iter_content_into_requests (u : string) (r : response) :
  preserves requests (iter_content_into w out u r).
Proof.
  apply preserves_bind; [apply write_chunks_requests|].
  intros _. now destruct (broken r).
Qed.

Lemma fetch_archive_dirs : preserves dirs (fetch_archive w x out).
Proof.
  apply preserves_try.
  - apply preserves_bind; [apply get_branch_name_dirs|]. intros b.
    apply preserves_bind; [apply requests_get_dirs|]. intros r.
    apply preserves_bind; [apply open_write_dirs|]. intros _.
    apply iter_content_into_dirs.
  - intros _. apply preserves_bind; [apply open_write_dirs|].
    intros _. apply write_dirs.
Qed.

Lemma fetch_archive_grows : grows (fetch_archive w x out).
Proof.
  apply grows_try.
  - apply grows_bind; [apply get_branch_name_grows|]. intros b.
    apply grows_bind; [apply requests_get_grows|]. intros r.
    apply grows_bind; [apply grows_preserves, open_write_requests|].
    intros _. apply grows_preserves, iter_content_into_requests.
  - intros _. apply grows_bind;
      [apply grows_preserves, open_write_requests|].
    intros _. apply grows_preserves, write_requests.
Qed.

(** [EmptyRepository] stops at the [except] clause. *)
Lemma fetch_archive_Raise (s s' : State) (e : exn) :
  fetch_archive w x out s = (Raise e, s') -> is_EmptyRepository e = false.
Proof.
  unfold fetch_archive, try_except.
  match goal with |- context [let (_, _) := ?m s in _] =>
    destruct (m s) as [[[]|e0] s0] end; [discriminate|].
  destruct (is_EmptyRepository e0) eqn:E; [|now intros [= <- _]].
  unfold_M. unfold OS.open_write.
  destruct (OS.dir_exists _ _); [|now intros [= <- _]].
  unfold OS.write; cbn. rewrite lookup_insert_eq. discriminate.
Qed.

Lemma download_zip_Raise (s s' : State) (e : exn) :
  download_zip w x out s = (Raise e, s') -> is_EmptyRepository e = false.
Proof.
  unfold download_zip. unfold_M.
  destruct (fetch_archive w x out s) as [[[]|e0] s0] eqn:F.
  - rewrite !updated_at_run.
    destruct (strptime_s w _); [|now intros [= <- _]].
    unfold OS.utime. destruct (files s0 !! out); [discriminate|].
    now intros [= <- _].
  - intros [= <- _]. exact (fetch_archive_Raise _ _ _ F).
Qed.

Lemma stamp_dirs :
  preserves dirs (atime ← updated_at w x; mtime ← updated_at w x;
                  OS.utime out atime mtime).
Proof.
  apply preserves_bind; [intros s; now rewrite state_after_updated_at|].
  intros a. apply preserves_bind;
    [intros s; now rewrite state_after_updated_at|].
  intros m. apply utime_dirs.
Qed.

Lemma stamp_requests :
  preserves requests (atime ← updated_at w x; mtime ← updated_at w x;
                      OS.utime out atime mtime).
Proof.
  apply preserves_bind; [intros s; now rewrite state_after_updated_at|].
  intros a. apply preserves_bind;
    [intros s; now rewrite state_after_updated_at|].
  intros m. apply utime_requests.
Qed.

Lemma download_zip_dirs : preserves dirs (download_zip w x out).
Proof.
  apply preserves_bind; [apply fetch_archive_dirs | intros _; apply stamp_dirs].
Qed.

Lemma download_zip_grows : grows (download_zip w x out).
Proof.
  apply grows_bind; [apply fetch_archive_grows|].
  intros _. apply grows_preserves, stamp_requests.
Qed.

(** A call that returns has stamped the file it leaves at [out]. *)
Lemma download_zip_Ret (s s' : State) :
  download_zip w x out s = (Ret tt, s') ->
  exists (t : Z) (d : string),
    strptime_s w (updated_at_text (data x)) = Some t
    /\ files s' !! out = Some (mkFile d (inject_Z t) (inject_Z t))
    /\ dirs s' = dirs s.
Proof.
  intros H. pose proof (download_zip_dirs s) as D.
  unfold state_after in D. rewrite H in D. cbn in D.
  revert H. unfold download_zip. unfold_M.
  destruct (fetch_archive w x out s) as [[[]|e0] s0]; [|discriminate].
  rewrite !updated_at_run.
  destruct (strptime_s w _) as [t|] eqn:T; [|discriminate].
  unfold OS.utime.
  destruct (files s0 !! out) as [f|]; [|discriminate].
  intros [= <-]. exists t, (f_data f). repeat split; [|assumption].
  cbn. apply lookup_insert_eq.
Qed.

(** The stamp at the end of [download_zip]. *)
Lemma stamp_run (s : State) (f : file) (t : Z) :
  files s !! out = Some f ->
  strptime_s w (updated_at_text (data x)) = Some t ->
  (atime ← updated_at w x; mtime ← updated_at w x;
   OS.utime out atime mtime) s
  = (Ret tt,
     set_files s (<[out := mkFile (f_data f) (inject_Z t) (inject_Z t)]> (files s))).
Proof.
  intros Hf T. unfold_M. rewrite !updated_at_run, T.
  unfold OS.utime. now rewrite Hf.
Qed.

(** The fetch once the branch is known and the GET is answered: the body
    goes to [out], as far as it came. *)
Lemma fetch_archive_answered (s s1 : State) (b : option string) (r : response) :
  get_branch_name w x s = (Ret b, s1) ->
  http_get w (List.length (requests s1)) (archive_url x b) = Some r ->
  OS.dir_exists s1 (Path.dirname out) = true ->
  fetch_archive w x out s
  = (if broken r then Raise (RequestException (archive_url x b)) else Ret tt,
     set_files (add_request s1 (archive_url x b))
       (<[out := mkFile (text r) (now w)
                   (match files s1 !! out with
                    | Some f => st_atime f
                    | None => now w
                    end)]> (files s1))).
Proof.
  intros Hb Hr Hd. rewrite (fetch_archive_resolved w x out s s1 b Hb).
  unfold_M. unfold requests_get. rewrite Hr. cbn [negb andb].
  rewrite open_write_run by exact Hd.
  unfold iter_content_into. unfold_M.
  erewrite write_chunks_run; [| apply lookup_insert_eq | reflexivity].
  unfold set_files, add_request, text;
    cbn [files dirs requests log f_data st_atime append].
  rewrite insert_insert_eq. now destruct (broken r).
Qed.

(** The fetch when [requests.get] raises: [out] is not opened. *)
Lemma fetch_archive_refused (s s1 : State) (b : option string) :
  get_branch_name w x s = (Ret b, s1) ->
  http_get w (List.length (requests s1)) (archive_url x b) = None ->
  fetch_archive w x out s
  = (Raise (RequestException (archive_url x b)),
     add_request s1 (archive_url x b)).
Proof.
  intros Hb Hr. rewrite (fetch_archive_resolved w x out s s1 b Hb).
  unfold_M. unfold requests_get. now rewrite Hr.
Qed.

(** The fetch when resolution ends in [EmptyRepository]. *)
Lemma fetch_archive_empty (s s0 : State) (u : string) :
  get_branch_name w x s = (Raise (EmptyRepository u), s0) ->
  OS.dir_exists s (Path.dirname out) = true ->
  fetch_archive w x out s
  = (Ret tt,
     set_files s0
       (<[out := mkFile placeholder (now w)
                   (match files s0 !! out with
                    | Some f => st_atime f
                    | None => now w
                    end)]> (files s0))).
Proof.
  intros Hb Hd.
  destruct (get_branch_name_EmptyRepository w x s s0 u Hb) as [_ ->].
  unfold fetch_archive. rewrite run_try_bind, Hb. cbn [is_EmptyRepository].
  unfold_M. rewrite open_write_run by exact Hd.
  unfold OS.write. cbn [files set_files]. rewrite lookup_insert_eq.
  unfold set_files; cbn [files dirs requests log f_data st_atime append].
  now rewrite insert_insert_eq.
Qed.

End FetchOutcomes.

(** ** The freshness test and [refresh_zip] *)

Section Refresh.

Variables (w : World) (x : Exploit).

Lemma should_download_run (s : State) :
  should_download w x s
  = (match files s !! output_file x with
     | None => Ret true
     | Some f =>
         match strptime_s w (updated_at_text (data x)) with
         | Some t => Ret (Qltb (st_mtime f) (inject_Z t))
         | None => Raise (ValueError (updated_at_text (data x)))
         end
     end, s).
Proof.
  unfold should_download, OS.stat. unfold_M.
  destruct (files s !! output_file x) as [f|]; [|reflexivity].
  rewrite updated_at_run. now destruct (strptime_s w _).
Qed.

Lemma makedirs_archive (s : State) :
  OS.makedirs (Path.dirname (output_file x)) s
  = (Ret tt, add_dirs s (archive_dirs x)).
Proof.
  unfold OS.makedirs, archive_dirs.
  pose proof (output_file_dirname x) as H.
  now destruct (Path.dirname (output_file x)).
Qed.

Lemma refresh_zip_run (s : State) :
  refresh_zip w x s
  = match fst (should_download w x s) with
    | Ret true => download_zip w x (output_file x) (add_dirs s (archive_dirs x))
    | Ret false => (Ret tt, add_dirs s (archive_dirs x))
    | Raise e => (Raise e, add_dirs s (archive_dirs x))
    end.
Proof.
  unfold refresh_zip. unfold_M. rewrite makedirs_archive.
  rewrite !should_download_run. cbn [fst files add_dirs].
  destruct (files s !! output_file x) as [f|]; [|reflexivity].
  destruct (strptime_s w _); [|reflexivity].
  now destruct (Qltb _ _).
Qed.


(** Making the directories again changes nothing. *)
Lemma add_dirs_again (s : State) :
  archive_dirs x ⊆ dirs s -> add_dirs s (archive_dirs x) = s.
Proof.
  intros H. apply State_eq; try reflexivity.
  cbn. now apply subseteq_union_1_L.
Qed.

End Refresh.

(** * The claims *)

(** C2: [refresh_zip] downloads when there is no file at the archive path;
    when there is one, it downloads if and only if the file's modification
    time is strictly earlier than the descriptor's [updated_at], so that
    equal times cause no download.  Either way the only thing done before
    is making the directories, which touches no file and asks for nothing. *)
Theorem refresh_zip_decision (w : World) (x : Exploit) (s : State) :
  let out := output_file x in
  let s1 := state_after (OS.makedirs (Path.dirname out)) s in
  (files s !! out = None -> refresh_zip w x s = download_zip w x out s1)
  /\ (forall f t,
        files s !! out = Some f ->
        strptime_s w (updated_at_text (data x)) = Some t ->
        ((st_mtime f < inject_Z t)%Q ->
         refresh_zip w x s = download_zip w x out s1)
        /\ (~ (st_mtime f < inject_Z t)%Q ->
            refresh_zip w x s = (Ret tt, s1))
        /\ ((st_mtime f == inject_Z t)%Q ->
            refresh_zip w x s = (Ret tt, s1)))
  /\ files s1 = files s /\ requests s1 = requests s.
Proof.
  intros out s1. subst out s1. unfold state_after.
  rewrite makedirs_archive. cbn [snd].
  split; [|split; [|split; reflexivity]].
  - intros H. now rewrite refresh_zip_run, should_download_run, H.
  - intros f t Hf Ht.
    assert (Hno : ~ (st_mtime f < inject_Z t)%Q ->
                  refresh_zip w x s = (Ret tt, add_dirs s (archive_dirs x))).
    { intros Hn. rewrite refresh_zip_run, should_download_run, Hf, Ht.
      cbn [fst]. destruct (Qltb _ _) eqn:E; [|reflexivity].
      now apply Qltb_lt in E. }
    split; [|split; [exact Hno|]].
    + intros Hlt%Qltb_lt.
      now rewrite refresh_zip_run, should_download_run, Hf, Ht, Hlt.
    + intros Heq. apply Hno. rewrite Heq. apply Qlt_irrefl.
Qed.

(** At equal times there is no download. *)
Lemma refresh_zip_decision_witness :
  refresh_zip Sample.online Sample.acme Sample.synced
  = (Ret tt,
     state_after (OS.makedirs (Path.dirname (output_file Sample.acme)))
       Sample.synced).
Proof.
  refine (proj2 (proj2 (proj1 (proj2
    (refresh_zip_decision Sample.online Sample.acme Sample.synced))
    (mkFile "PKzip" (inject_Z 1625140800) (inject_Z 1625140800))
    1625140800 _ _)) _).
  - vm_compute; reflexivity.
  - reflexivity.
  - reflexivity.
Defined.

(** C3: after a run of [refresh_zip] that returned, a second run for the
    same descriptor, with [updated_at] read the same, returns at once and
    leaves the state as it was: no request is issued and no file changes. *)
Theorem refresh_zip_idempotent (w1 w2 : World) (x : Exploit) (s s1 : State) :
  refresh_zip w1 x s = (Ret tt, s1) ->
  strptime_s w2 (updated_at_text (data x))
  = strptime_s w1 (updated_at_text (data x)) ->
  refresh_zip w2 x s1 = (Ret tt, s1).
Proof.
  intros H Hsame.
  rewrite refresh_zip_run, should_download_run in H. cbn [fst] in H.
  rewrite refresh_zip_run, should_download_run, Hsame. cbn [fst].
  assert (Hdl : download_zip w1 x (output_file x) (add_dirs s (archive_dirs x))
                = (Ret tt, s1) ->
                (match files s1 !! output_file x with
                 | Some f =>
                     match strptime_s w1 (updated_at_text (data x)) with
                     | Some t => Ret (Qltb (st_mtime f) (inject_Z t))
                     | None => Raise (ValueError (updated_at_text (data x)))
                     end
                 | None => Ret true
                 end = Ret false)
                /\ archive_dirs x ⊆ dirs s1).
  { intros (t & d & T & Hf & Hd)%download_zip_Ret.
    rewrite Hf, T. cbn [st_mtime]. rewrite Qltb_irrefl. split; [reflexivity|].
    rewrite Hd. cbn. apply union_subseteq_l. }
  destruct (files s !! output_file x) as [f|] eqn:Hf.
  - destruct (strptime_s w1 (updated_at_text (data x))) as [t|] eqn:T;
      [|discriminate].
    destruct (Qltb (st_mtime f) (inject_Z t)) eqn:E.
    + destruct (Hdl H) as [-> Hsub]. now rewrite add_dirs_again.
    + injection H as <-. cbn [files add_dirs]. rewrite Hf, E.
      rewrite add_dirs_again; [reflexivity | cbn; apply union_subseteq_l].
  - destruct (Hdl H) as [-> Hsub]. now rewrite add_dirs_again.
Qed.

Lemma refresh_zip_idempotent_witness :
  refresh_zip Sample.not_found Sample.acme Sample.synced
  = (Ret tt, Sample.synced).
Proof.
  apply (refresh_zip_idempotent Sample.online Sample.not_found Sample.acme
           Sample.blank Sample.synced).
  - vm_compute; reflexivity.
  - reflexivity.
Defined.



(** C5: when branch resolution raises [EmptyRepository], [download_zip] does
    not let it out; with the directory of the archive in place and
    [updated_at] readable it returns, and the file it leaves holds the
    placeholder text and is stamped with [updated_at]. *)
Theorem download_zip_empty_repository (w : World) (x : Exploit) (out : string)
    (s s0 : State) (u : string) :
  get_branch_name w x s = (Raise (EmptyRepository u), s0) ->
  (forall e s', download_zip w x out s = (Raise e, s') ->
                is_EmptyRepository e = false)
  /\ (forall t,
        OS.dir_exists s (Path.dirname out) = true ->
        strptime_s w (updated_at_text (data x)) = Some t ->
        download_zip w x out s
        = (Ret tt,
           set_files s0
             (<[out := mkFile "Empty repository" (inject_Z t) (inject_Z t)]>
                (files s0)))).
Proof.
  intros H. split; [intros e s'; apply download_zip_Raise|].
  intros t Hd T. unfold download_zip.
  erewrite bind_Ret; [| exact (fetch_archive_empty w x out s s0 u H Hd)].
  erewrite stamp_run; [| apply lookup_insert_eq | exact T].
  unfold set_files; cbn [files dirs requests log f_data].
  now rewrite insert_insert_eq.
Qed.

Lemma download_zip_empty_repository_witness :
  download_zip Sample.empty_repo Sample.acme (output_file Sample.acme)
    Sample.ready
  = (Ret tt,
     set_files (add_request Sample.ready (url Sample.acme))
       (<[output_file Sample.acme :=
            mkFile "Empty repository" (inject_Z 1625140800)
              (inject_Z 1625140800)]> (files Sample.ready))).
Proof.
  refine (proj2 (download_zip_empty_repository Sample.empty_repo Sample.acme
            (output_file Sample.acme) Sample.ready
            (add_request Sample.ready (url Sample.acme))
            (url Sample.acme) _) 1625140800 _ _).
  - vm_compute; reflexivity.
  - vm_compute; reflexivity.
  - reflexivity.
Defined.

(** C6, as the claim has it, fails: the archive of an earlier run is at the
    destination, the transfer breaks after one chunk, and the destination is
    left holding that chunk in place of the earlier archive. *)
Lemma download_zip_truncates_on_failure :
  exists s',
    download_zip Sample.flaky Sample.acme (output_file Sample.acme) Sample.stale
    = (Raise (RequestException
                "https://github.com/acme/rpc-leak/archive/refs/heads/main.zip"),
       s')
    /\ f_data <$> files Sample.stale !! output_file Sample.acme
       = Some "OLD ARCHIVE"
    /\ f_data <$> files s' !! output_file Sample.acme = Some "PK".
Proof.
  eexists. split; [vm_compute; reflexivity|].
  split; vm_compute; reflexivity.
Qed.

(** C6, amended: [download_zip] writes straight to the destination.  When
    the transfer breaks partway the call raises the transfer error, and the
    destination, emptied when it was opened, holds the chunks that arrived
    before the break, with the time of writing as its modification time and
    not [updated_at].  The destination is left untouched only when
    [requests.get] itself raises, before the file is opened. *)
Theorem download_zip_broken_transfer (w : World) (x : Exploit) (out : string)
    (s s1 : State) (b : option string) :
  get_branch_name w x s = (Ret b, s1) ->
  (forall r,
     http_get w (List.length (requests s1)) (archive_url x b) = Some r ->
     broken r = true ->
     OS.dir_exists s1 (Path.dirname out) = true ->
     exists s' f,
       download_zip w x out s
       = (Raise (RequestException (archive_url x b)), s')
       /\ files s' !! out = Some f
       /\ f_data f = text r /\ st_mtime f = now w)
  /\ (http_get w (List.length (requests s1)) (archive_url x b) = None ->
      exists s',
        download_zip w x out s
        = (Raise (RequestException (archive_url x b)), s')
        /\ files s' = files s1).
Proof.
  intros H. split.
  - intros r Hr Hb Hd. do 2 eexists. unfold download_zip.
    erewrite bind_Raise.
    2:{ rewrite (fetch_archive_answered w x out s s1 b r H Hr Hd), Hb.
        reflexivity. }
    split; [reflexivity|]. cbn [files set_files].
    rewrite lookup_insert_eq. now repeat split.
  - intros Hr. eexists. unfold download_zip.
    erewrite bind_Raise by exact (fetch_archive_refused w x out s s1 b H Hr).
    now split.
Qed.

Lemma download_zip_broken_transfer_witness :
  exists s' f,
    download_zip Sample.flaky Sample.acme (output_file Sample.acme) Sample.stale
    = (Raise (RequestException (archive_url Sample.acme (Some "main"))), s')
    /\ files s' !! output_file Sample.acme = Some f
    /\ f_data f = "PK" /\ st_mtime f = Sample.clock.
Proof.
  refine (proj1 (download_zip_broken_transfer Sample.flaky Sample.acme
            (output_file Sample.acme) Sample.stale Sample.stale (Some "main") _)
            (mkResponse 200 ["PK"] true) _ _ _).
  - vm_compute; reflexivity.
  - reflexivity.
  - reflexivity.
  - vm_compute; reflexivity.
Defined.

(** C9: [download_zip] does not look at the status of the answer.  With the
    branch resolved, whatever status and body the GET of the archive URL
    brings, an error page included, the body is written to the archive
    path and stamped with [updated_at]; the freshness test then finds the
    file fresh. *)
Theorem download_zip_ignores_status (w w' : World) (x : Exploit)
    (s s1 : State) (b : option string) (code : Z) (body : list string)
    (t : Z) :
  get_branch_name w x s = (Ret b, s1) ->
  http_get w (List.length (requests s1)) (archive_url x b)
  = Some (mkResponse code body false) ->
  OS.dir_exists s1 (Path.dirname (output_file x)) = true ->
  strptime_s w (updated_at_text (data x)) = Some t ->
  strptime_s w' (updated_at_text (data x)) = Some t ->
  let s' := set_files (add_request s1 (archive_url x b))
              (<[output_file x :=
                   mkFile (String.concat "" body) (inject_Z t) (inject_Z t)]>
                 (files s1)) in
  download_zip w x (output_file x) s = (Ret tt, s')
  /\ should_download w' x s' = (Ret false, s').
Proof.
  intros H Hr Hd T T' s'. subst s'. split.
  - unfold download_zip.
    erewrite bind_Ret;
      [| exact (fetch_archive_answered w x _ s s1 b _ H Hr Hd)].
    erewrite stamp_run; [| apply lookup_insert_eq | exact T].
    unfold set_files; cbn [files dirs requests log f_data text chunks].
    now rewrite insert_insert_eq.
  - rewrite should_download_run. cbn [files set_files].
    rewrite lookup_insert_eq, T'. cbn [st_mtime]. now rewrite Qltb_irrefl.
Qed.

Lemma download_zip_ignores_status_witness :
  let s' := set_files (add_request Sample.stale
                         (archive_url Sample.acme (Some "main")))
              (<[output_file Sample.acme :=
                   mkFile "404: Not Found" (inject_Z 1625140800)
                     (inject_Z 1625140800)]> (files Sample.stale)) in
  download_zip Sample.not_found Sample.acme (output_file Sample.acme)
    Sample.stale = (Ret tt, s')
  /\ should_download Sample.online Sample.acme s' = (Ret false, s').
Proof.
  apply (download_zip_ignores_status Sample.not_found Sample.online
           Sample.acme Sample.stale Sample.stale (Some "main") 404
           ["404: Not Found"] 1625140800).
  - vm_compute; reflexivity.
  - reflexivity.
  - vm_compute; reflexivity.
  - reflexivity.
  - reflexivity.
Defined.

(** ** Files other than the one written *)

Section Others.

Variables (w : World) (out p : string).
Hypothesis Hne : p <> out.

Lemma open_write_other : preserves (fun s => files s !! p) (OS.open_write w out).
Proof.
  intros s. unfold state_after, OS.open_write.
  destruct (OS.dir_exists s _); [|reflexivity].
  cbn. now rewrite lookup_insert_ne.
Qed.

Lemma write_other (d : string) :
  preserves (fun s => files s !! p) (OS.write w out d).
Proof.
  intros s. unfold state_after, OS.write.
  destruct (files s !! out); [|reflexivity].
  cbn. now rewrite lookup_insert_ne.
Qed.

Lemma utime_other (a m : Z) :
  preserves (fun s => files s !! p) (OS.utime out a m).
Proof.
  intros s. unfold state_after, OS.utime.
  destruct (files s !! out); [|reflexivity].
  cbn. now rewrite lookup_insert_ne.
Qed.

Lemma stamp_other (x : Exploit) :
  preserves (fun s => files s !! p)
    (atime ← updated_at w x; mtime ← updated_at w x;
     OS.utime out atime mtime).
Proof.
  apply preserves_bind; [intros s; now rewrite state_after_updated_at|].
  intros a. apply preserves_bind;
    [intros s; now rewrite state_after_updated_at|].
  intros m. apply utime_other.
Qed.

End Others.




(** ** The driver *)



(** ** The scenario of the specification, computed *)

Example fromstr_feed_file :
  fromstr (Path.basename "./2021/CVE-2021-34527.json") = Ret Sample.cve_34527.
Proof. reflexivity. Qed.

Example CVE_str_pads :
  CVE_str (mkCVE (PyInt 2021) (PyInt 7)) = "CVE-2021-0007".
Proof. reflexivity. Qed.

Example CVE_str_wide :
  CVE_str (mkCVE (PyInt 2021) (PyInt 123456)) = "CVE-2021-123456".
Proof. reflexivity. Qed.

Example output_file_acme :
  output_file Sample.acme = "2021/CVE-2021-34527/acme.zip"
  /\ cached_branchname Sample.acme = "2021/CVE-2021-34527/.acme.branch".
Proof. split; reflexivity. Qed.

(** The first run leaves the archive, stamped, and the sidecar, and has asked
    for the page and then for the archive. *)
Example first_run :
  refresh_zip Sample.online Sample.acme Sample.blank = (Ret tt, Sample.synced)
  /\ files Sample.synced !! "2021/CVE-2021-34527/acme.zip"
     = Some (mkFile "PKzip" (inject_Z 1625140800) (inject_Z 1625140800))
  /\ f_data <$> files Sample.synced !! "2021/CVE-2021-34527/.acme.branch"
     = Some ("main" ++ String PyText.newline EmptyString)
  /\ requests Sample.synced
     = ["https://github.com/acme/rpc-leak";
        "https://github.com/acme/rpc-leak/archive/refs/heads/main.zip"].
Proof. repeat split; vm_compute; reflexivity. Qed.

(** A newer upstream and the archive is fetched again, with the
    branch read from the sidecar. *)
Example newer_upstream :
  fst (should_download Sample.online Sample.acme_later Sample.synced) = Ret true
  /\ requests (state_after (refresh_zip Sample.online Sample.acme_later)
                 Sample.synced)
     = (requests Sample.synced
        ++ ["https://github.com/acme/rpc-leak/archive/refs/heads/main.zip"])%list.
Proof. split; vm_compute; reflexivity. Qed.

(** A file name that does not begin with the pattern stops [main] before any
    pair is looked at. *)
Example main_malformed_feed :
  main Sample.online
    (mkFeed true [("./README.json", Some [Sample.repo "acme"])] true)
    Sample.blank
  = (Ret 1, add_log Sample.blank (LogErrorTop (ValueError "README.json"))).
Proof. reflexivity. Qed.

(** * Beyond the claims *)

(** ** The identifier: formatting *)

Section Formatting.

Import PyStr.

Lemma length_append (a b : string) :
  String.length (a ++ b) = (String.length a + String.length b)%nat.
Proof. induction a as [|c a IH]; simpl; [reflexivity | now rewrite IH]. Qed.

Lemma length_zeros (n : nat) : String.length (zeros n) = n.
Proof. induction n; simpl; congruence. Qed.

Lemma digits_value_zeros (k : nat) (s : string) :
  digits_value (zeros k ++ s) = digits_value s.
Proof.
  unfold digits_value. induction k as [|k IH]; [reflexivity|].
  rewrite <- IH. cbn [zeros append NilEmpty.uint_of_string].
  now destruct (NilEmpty.uint_of_string (zeros k ++ s)).
Qed.

Lemma digits_value_str_int (z : Z) :
  0 <= z -> digits_value (str_int z) = Some (Z.to_N z).
Proof.
  intros Hz. destruct z as [|p|p]; [reflexivity | | lia].
  unfold digits_value, str_int. cbn [Z.to_int NilZero.string_of_int].
  pose proof (Unsigned.to_uint_nonnil p) as Hnil.
  assert (E : NilZero.string_of_uint (Pos.to_uint p)
              = NilEmpty.string_of_uint (Pos.to_uint p))
    by (destruct (Pos.to_uint p); [congruence | reflexivity ..]).
  rewrite E, NilEmpty.usu. cbn [option_map].
  now rewrite DecimalPos.Unsigned.of_to.
Qed.

Lemma digits_value_format_04 (z : Z) :
  0 <= z -> digits_value (format_04_int z) = Some (Z.to_N z).
Proof.
  intros Hz. unfold format_04_int.
  destruct (Z.ltb_spec z 0) as [|_]; [lia|].
  now rewrite digits_value_zeros, digits_value_str_int.
Qed.

Lemma cve_re_search_str (y i : Z) :
  0 <= y -> 0 <= i ->
  cve_re_search (CVE_str (mkCVE (PyInt y) (PyInt i)))
  = Some (str_int y, format_04_int i).
Proof.
  intros Hy Hi.
  destruct (str_int_digits y Hy) as [Dy Ny].
  destruct (format_04_int_digits i Hi) as [Di Ni].
  unfold CVE_str; cbn [year id py_str py_format_04].
  pose proof (cve_re_search_at_start _ _ EmptyString Ny Ni Dy Di) as H.
  cbn [span_digits fst] in H. now rewrite !append_empty_r in H.
Qed.

End Formatting.

(** X1: the sequence number is written with zeros in front up to four
    characters and is never cut: the text of a non-negative [id] has the
    length of its decimal digits or 4, whichever is larger, and an [id] of
    four digits or more is written as it is. *)
Theorem format_04_never_truncates (z : Z) :
  0 <= z ->
  String.length (py_format_04 (PyInt z))
  = Nat.max 4 (String.length (PyStr.str_int z))
  /\ ((4 <= String.length (PyStr.str_int z))%nat ->
      py_format_04 (PyInt z) = PyStr.str_int z)
  /\ digits_value (py_format_04 (PyInt z)) = Some (Z.to_N z).
Proof.
  intros Hz. cbn [py_format_04]. split; [|split].
  - unfold PyStr.format_04_int. destruct (Z.ltb_spec z 0) as [|_]; [lia|].
    rewrite length_append, length_zeros. lia.
  - intros H. unfold PyStr.format_04_int.
    destruct (Z.ltb_spec z 0) as [|_]; [lia|].
    now replace (4 - String.length (PyStr.str_int z))%nat with O by lia.
  - now apply digits_value_format_04.
Qed.

Lemma format_04_never_truncates_witness :
  String.length (py_format_04 (PyInt 123456)) = 6%nat
  /\ py_format_04 (PyInt 7) = "0007"
  /\ digits_value (py_format_04 (PyInt 7)) = Some 7%N.
Proof.
  pose proof (format_04_never_truncates 123456 ltac:(lia)) as (H1 & _ & _).
  pose proof (format_04_never_truncates 7 ltac:(lia)) as (_ & _ & H3).
  split; [exact H1|]. split; [reflexivity | exact H3].
Defined.

(** X2: [CVE.__str__] tells identifiers apart: two identifiers with
    non-negative integer fields that have the same text are the same. *)
Theorem CVE_str_injective (y i y' i' : Z) :
  0 <= y -> 0 <= i -> 0 <= y' -> 0 <= i' ->
  CVE_str (mkCVE (PyInt y) (PyInt i)) = CVE_str (mkCVE (PyInt y') (PyInt i')) ->
  y = y' /\ i = i'.
Proof.
  intros Hy Hi Hy' Hi' E.
  pose proof (cve_re_search_str y i Hy Hi) as S.
  rewrite E, (cve_re_search_str y' i' Hy' Hi') in S.
  injection S as Ey Ei.
  pose proof (digits_value_str_int y Hy) as Vy.
  rewrite <- Ey, (digits_value_str_int y' Hy') in Vy.
  pose proof (digits_value_format_04 i Hi) as Vi.
  rewrite <- Ei, (digits_value_format_04 i' Hi') in Vi.
  injection Vy as Vy. injection Vi as Vi. split; lia.
Qed.

Lemma CVE_str_injective_witness : 2021 = 2021 /\ 7 = 7.
Proof.
  apply (CVE_str_injective 2021 7 2021 7); try lia. reflexivity.
Defined.

(** X3: what [CVE.fromstr] yields on a string that begins with the pattern
    and goes on with something that is not a digit, the name of a feed file
    for one: the two runs of digits, as strings and as they stand, zeros in
    front included. *)
Theorem fromstr_file_name (y i rest : string) :
  y <> EmptyString -> i <> EmptyString ->
  PyStr.all_digits y = true -> PyStr.all_digits i = true ->
  no_leading_digit rest ->
  fromstr ("CVE-" ++ y ++ "-" ++ i ++ rest) = Ret (mkCVE (PyStr y) (PyStr i)).
Proof.
  intros Hy Hi Dy Di Hr. unfold fromstr.
  rewrite (cve_re_search_at_start y i rest Hy Hi Dy Di).
  rewrite (span_digits_stop rest Hr). cbn [fst]. now rewrite append_empty_r.
Qed.

Lemma fromstr_file_name_witness :
  fromstr "CVE-2021-0042.json" = Ret (mkCVE (PyStr "2021") (PyStr "0042")).
Proof.
  apply (fromstr_file_name "2021" "0042" ".json"); try discriminate;
    reflexivity.
Defined.

(** X4: the text of an identifier that [CVE.fromstr] has parsed is the text
    that was matched, with zeros added behind a sequence number of fewer than
    four digits: [str] after [fromstr] gives the matched text back exactly
    when the sequence number has four digits or more. *)
Theorem CVE_str_fromstr (s : string) (c : CVE) :
  fromstr s = Ret c ->
  exists y i rest : string,
    s = "CVE-" ++ y ++ "-" ++ i ++ rest
    /\ c = mkCVE (PyStr y) (PyStr i)
    /\ CVE_str c
       = "CVE-" ++ y ++ "-" ++ i ++ PyStr.zeros (4 - String.length i)
    /\ ((4 <= String.length i)%nat -> CVE_str c = "CVE-" ++ y ++ "-" ++ i).
Proof.
  unfold fromstr, cve_re_search.
  destruct (PyStr.strip_prefix "CVE-" s) as [r1|] eqn:E1; [|discriminate].
  apply strip_prefix_Some in E1.
  destruct (span_digits_spec r1) as (A1 & _ & _).
  destruct (PyStr.span_digits r1) as [y r2]; cbn [fst snd] in *.
  destruct y as [|cy y]; [discriminate|].
  destruct r2 as [|m r3]; [discriminate|].
  destruct (Ascii.eqb_spec m "-") as [->|Hm].
  2:{ destruct m as [[] [] [] [] [] [] [] []]; try discriminate. easy. }
  destruct (span_digits_spec r3) as (B1 & _ & _).
  destruct (PyStr.span_digits r3) as [i r4]; cbn [fst snd] in *.
  destruct i as [|ci i]; [discriminate|]. intros [= <-].
  exists (String cy y), (String ci i), r4.
  split; [now rewrite E1, A1, B1 at 1|]. split; [reflexivity|].
  split; [reflexivity|].
  intros H. unfold CVE_str; cbn [year id py_str py_format_04].
  unfold PyStr.format_04_str.
  replace (4 - String.length (String ci i))%nat with O by lia.
  cbn [PyStr.zeros]. now rewrite append_empty_r.
Qed.

(** A feed file named with a two-digit sequence number is filed under a
    four-digit one. *)
Lemma CVE_str_fromstr_witness :
  exists y i rest : string,
    "CVE-2021-12.json" = "CVE-" ++ y ++ "-" ++ i ++ rest
    /\ mkCVE (PyStr "2021") (PyStr "12") = mkCVE (PyStr y) (PyStr i)
    /\ CVE_str (mkCVE (PyStr "2021") (PyStr "12"))
       = "CVE-" ++ y ++ "-" ++ i ++ PyStr.zeros (4 - String.length i)
    /\ ((4 <= String.length i)%nat ->
        CVE_str (mkCVE (PyStr "2021") (PyStr "12")) = "CVE-" ++ y ++ "-" ++ i).
Proof.
  apply (CVE_str_fromstr "CVE-2021-12.json"). reflexivity.
Defined.

(** ** Paths: splitting and joining *)

Section PathAlgebra.

Import Path.

Lemma rsplit_app (p : string) : fst (rsplit p) ++ snd (rsplit p) = p.
Proof.
  induction p as [|c p IH]; [reflexivity|]. cbn [rsplit].
  destruct (rsplit p) as [h t]; cbn [fst snd] in *.
  destruct h as [|c' h].
  - cbn in IH. subst t.
    destruct (Ascii.eqb_spec c sep) as [->|_]; reflexivity.
  - cbn [fst snd].
    change (String c (String c' h) ++ t) with (String c (String c' h ++ t)).
    now rewrite IH.
Qed.

Lemma rsplit_tail_no_sep (p : string) : has_sep (snd (rsplit p)) = false.
Proof.
  induction p as [|c p IH]; [reflexivity|]. cbn [rsplit].
  destruct (rsplit p) as [h t]; cbn [fst snd] in *.
  destruct h as [|c' h]; [|exact IH].
  destruct (Ascii.eqb c sep) eqn:E; cbn [snd has_sep]; [exact IH|].
  now rewrite E, IH.
Qed.

Lemma rsplit_no_sep (f : string) :
  has_sep f = false -> rsplit f = (EmptyString, f).
Proof.
  induction f as [|c f IH]; [reflexivity|]. cbn [has_sep rsplit].
  intros [Hc Hf]%orb_false_elim. now rewrite (IH Hf), Hc.
Qed.

Lemma rsplit_app_sep (h f : string) :
  endswith_sep h = true -> has_sep f = false -> rsplit (h ++ f) = (h, f).
Proof.
  intros Hh Hf. induction h as [|c h IH]; [discriminate|].
  cbn [append rsplit]. destruct h as [|c' h].
  - cbn in Hh. apply Ascii.eqb_eq in Hh as ->.
    cbn [append]. now rewrite (rsplit_no_sep f Hf), Ascii.eqb_refl.
  - rewrite IH by exact Hh. reflexivity.
Qed.

Lemma endswith_sep_app_sep (d : string) : endswith_sep (d ++ "/") = true.
Proof.
  induction d as [|c d IH]; [reflexivity|]. cbn [append endswith_sep].
  destruct (d ++ "/") eqn:E; [destruct d; discriminate | exact IH].
Qed.

Lemma all_sep_endswith (d : string) :
  d <> EmptyString -> all_sep d = true -> endswith_sep d = true.
Proof.
  induction d as [|c d IH]; [easy|]. intros _. cbn [all_sep endswith_sep].
  intros [Hc Hd]%andb_prop. destruct d as [|c' d]; [exact Hc|].
  now apply IH.
Qed.

Lemma all_sep_app (a b : string) : all_sep (a ++ b) = all_sep a && all_sep b.
Proof.
  induction a as [|c a IH]; [reflexivity|]. cbn [append all_sep].
  now rewrite IH, andb_assoc.
Qed.

Lemma rstrip_sep_id (d : string) : endswith_sep d = false -> rstrip_sep d = d.
Proof.
  induction d as [|c d IH]; [reflexivity|]. cbn [endswith_sep rstrip_sep].
  destruct d as [|c' d].
  - intros ->. reflexivity.
  - intros H. rewrite (IH H). reflexivity.
Qed.

Lemma rstrip_sep_app_sep (d : string) : rstrip_sep (d ++ "/") = rstrip_sep d.
Proof.
  induction d as [|c d IH]; [reflexivity|]. cbn [append rstrip_sep].
  now rewrite IH.
Qed.

Lemma rstrip_sep_not_endswith (h : string) : endswith_sep (rstrip_sep h) = false.
Proof.
  induction h as [|c h IH]; [reflexivity|]. cbn [rstrip_sep].
  destruct (rstrip_sep h) as [|c' r].
  - destruct (Ascii.eqb c sep) eqn:E; [reflexivity | cbn; exact E].
  - exact IH.
Qed.

(** What [dirname] returns is all separators, or does not end in one. *)
Lemma dirname_normal (p : string) :
  all_sep (dirname p) = true \/ endswith_sep (dirname p) = false.
Proof.
  unfold dirname. destruct (fst (rsplit p)) as [|c h]; [now left|].
  destruct (all_sep (String c h)) eqn:E; [now left|].
  right. apply rstrip_sep_not_endswith.
Qed.

Lemma no_sep_not_startswith (f : string) :
  has_sep f = false -> PyStr.startswith f "/" = false.
Proof.
  intros H. destruct (PyStr.startswith f "/") eqn:E; [|reflexivity].
  apply startswith_sep_has_sep in E. congruence.
Qed.

Lemma rsplit_join2 (d f : string) :
  has_sep f = false ->
  rsplit (join2 d f)
  = (match d with
     | EmptyString => EmptyString
     | _ => if endswith_sep d then d else d ++ "/"
     end, f).
Proof.
  intros Hf. unfold join2. rewrite (no_sep_not_startswith f Hf).
  destruct d as [|c d]; [now apply rsplit_no_sep|].
  destruct (endswith_sep (String c d)) eqn:E.
  - now apply rsplit_app_sep.
  - rewrite <- append_assoc. apply rsplit_app_sep; [|exact Hf].
    apply endswith_sep_app_sep.
Qed.

Lemma dirname_join2 (d f : string) :
  has_sep f = false ->
  all_sep d = true \/ endswith_sep d = false ->
  dirname (join2 d f) = d.
Proof.
  intros Hf Hd. unfold dirname. rewrite (rsplit_join2 d f Hf). cbn [fst].
  destruct d as [|c d]; [reflexivity|].
  destruct (endswith_sep (String c d)) eqn:E.
  - destruct Hd as [Hd|Hd]; [now rewrite Hd | congruence].
  - destruct (String c d ++ "/") as [|c1 r1] eqn:E1; [discriminate|].
    rewrite <- E1. rewrite all_sep_app.
    destruct (all_sep (String c d)) eqn:A.
    + rewrite all_sep_endswith in E by (easy || exact A). discriminate.
    + cbn [andb]. now rewrite rstrip_sep_app_sep, rstrip_sep_id.
Qed.

Lemma has_sep_false_app (a b : string) :
  has_sep a = false -> has_sep b = false -> has_sep (a ++ b) = false.
Proof. intros Ha Hb. now rewrite has_sep_app, Ha, Hb. Qed.

End PathAlgebra.

(** X5: [os.path.basename] and the split behind [os.path.dirname]: the
    two parts of a path put together give the path back, the last part has
    no separator in it, and the last part of a directory joined with a file
    name is the file name, which is how [main] gets at the name of a feed
    file. *)
Theorem basename_of_join (d f p : string) :
  fst (Path.rsplit p) ++ Path.basename p = p
  /\ has_sep (Path.basename p) = false
  /\ (has_sep f = false -> Path.basename (Path.join d [f]) = f).
Proof.
  split; [apply rsplit_app|]. split; [apply rsplit_tail_no_sep|].
  intros Hf. unfold Path.basename, Path.join. cbn [fold_left].
  now rewrite rsplit_join2.
Qed.

Lemma basename_of_join_witness :
  Path.basename (Path.join "./2021" ["CVE-2021-34527.json"])
  = "CVE-2021-34527.json".
Proof.
  refine (proj2 (proj2 (basename_of_join "./2021" "CVE-2021-34527.json"
                          EmptyString)) _).
  reflexivity.
Defined.

(** X6: for an owner whose login has no separator in it, the archive is the
    file [<login>.zip], the sidecar is the file [.<login>.branch], and the
    sidecar lies in the directory of the archive, the one [refresh_zip]
    makes. *)
Theorem sidecar_next_to_archive (x : Exploit) :
  has_sep (login x) = false ->
  Path.basename (output_file x) = login x ++ ".zip"
  /\ Path.basename (cached_branchname x) = "." ++ login x ++ ".branch"
  /\ Path.dirname (cached_branchname x) = Path.dirname (output_file x).
Proof.
  intros Hl.
  assert (Hz : has_sep (login x ++ ".zip") = false)
    by now apply has_sep_false_app.
  assert (Hb : has_sep ("." ++ login x ++ ".branch") = false)
    by (apply (has_sep_false_app "."); [reflexivity|];
        now apply has_sep_false_app).
  split; [|split].
  - unfold Path.basename, output_file, Path.join. cbn [fold_left].
    now rewrite rsplit_join2.
  - unfold Path.basename, cached_branchname, Path.join. cbn [fold_left].
    now rewrite rsplit_join2.
  - unfold cached_branchname, Path.join. cbn [fold_left].
    apply dirname_join2; [exact Hb | apply dirname_normal].
Qed.

Lemma sidecar_next_to_archive_witness :
  Path.basename (output_file Sample.acme) = "acme.zip"
  /\ Path.basename (cached_branchname Sample.acme) = ".acme.branch"
  /\ Path.dirname (cached_branchname Sample.acme)
     = Path.dirname (output_file Sample.acme).
Proof. apply (sidecar_next_to_archive Sample.acme). reflexivity. Defined.

(** ** The sidecar *)

Section Sidecar.

Import PyText.

Lemma readline_one_line (b : string) :
  one_line b = true ->
  readline (b ++ String newline EmptyString) = b ++ String newline EmptyString.
Proof.
  induction b as [|c b IH]; [reflexivity|]. cbn [one_line append readline].
  intros [Hc Hb]%andb_prop. apply negb_true_iff in Hc. rewrite Hc.
  now rewrite (IH Hb).
Qed.

Lemma rstrip_app_newline (b : string) :
  rstrip (b ++ String newline EmptyString) = rstrip b.
Proof.
  induction b as [|c b IH]; [reflexivity|]. cbn [append rstrip].
  now rewrite IH.
Qed.

Lemma rstrip_last (b : string) :
  match last_char b with Some c => negb (is_space c) | None => true end = true ->
  rstrip b = b.
Proof.
  induction b as [|c b IH]; [reflexivity|]. cbn [last_char rstrip].
  destruct b as [|c' b].
  - intros Hc%negb_true_iff. cbn [rstrip]. now rewrite Hc.
  - intros H. rewrite (IH H). reflexivity.
Qed.

Lemma strip_clean_line (b : string) :
  clean_name b = true ->
  strip (readline (b ++ String newline EmptyString)) = b.
Proof.
  unfold clean_name. intros [[H1 H2]%andb_prop H3]%andb_prop.
  rewrite (readline_one_line b H1). unfold strip.
  destruct b as [|c b]; [reflexivity|].
  apply negb_true_iff in H2. cbn [append lstrip]. rewrite H2.
  change (String c (b ++ String newline EmptyString))
    with (String c b ++ String newline EmptyString).
  now rewrite rstrip_app_newline, rstrip_last.
Qed.

End Sidecar.

Section Resolved.

Variables (w : World) (x : Exploit).

(** A resolution that had to ask and returned has written the sidecar. *)
Lemma get_branch_name_miss_Ret (s s1 : State) (b : option string) :
  files s !! cached_branchname x = None ->
  get_branch_name w x s = (Ret b, s1) ->
  s1 = set_files (add_request s (url x))
         (<[cached_branchname x :=
              mkFile (PyText.fmt_opt b ++ String PyText.newline EmptyString)
                (now w) (now w)]> (files s)).
Proof.
  intros E H. rewrite (get_branch_name_miss w x s E) in H.
  pose proof (state_after_github w x s) as G. unfold state_after in G.
  revert H. unfold_M.
  destruct (get_branch_name_from_github w x s) as [[b'|e] s0]; cbn [snd] in G;
    subst s0; [|discriminate].
  unfold OS.open_write. destruct (OS.dir_exists _ _); [|discriminate].
  unfold OS.write. cbn [files set_files add_request].
  rewrite lookup_insert_eq, E. intros [= <- <-].
  unfold set_files, add_request; cbn [files dirs requests log f_data st_atime].
  now rewrite insert_insert_eq.
Qed.

Lemma download_zip_resolved (out : string) (s s1 : State) (b : option string) :
  get_branch_name w x s = (Ret b, s1) ->
  download_zip w x out s
  = ((r ← requests_get w (archive_url x b) true;
      OS.open_write w out;;
      iter_content_into w out (archive_url x b) r);;
     atime ← updated_at w x; mtime ← updated_at w x;
     OS.utime out atime mtime) s1.
Proof.
  intros H. unfold download_zip. unfold mbind at 1 6, M_bind at 1 6.
  now rewrite (fetch_archive_resolved w x out s s1 b H).
Qed.

End Resolved.

(** X7: the sidecar is a cache.  After a resolution that returned, a second
    one, whatever the network has become, issues no request and leaves the
    state as it is.  When the first one had to ask, it asked once, and the
    second returns the first line of what was written, stripped: the same
    branch, when the branch is one line with no white space around it. *)
Theorem get_branch_name_cached (w w2 : World) (x : Exploit) (s s1 : State)
    (b : option string) :
  get_branch_name w x s = (Ret b, s1) ->
  (exists b2, get_branch_name w2 x s1 = (Ret b2, s1))
  /\ (files s !! cached_branchname x = None ->
      requests s1 = (requests s ++ [url x])%list
      /\ get_branch_name w2 x s1
         = (Ret (Some (PyText.strip
                         (PyText.readline
                            (PyText.fmt_opt b
                             ++ String PyText.newline EmptyString)))), s1)
      /\ (forall name, b = Some name -> clean_name name = true ->
          get_branch_name w2 x s1 = (Ret b, s1))).
Proof.
  intros H.
  destruct (files s !! cached_branchname x) as [f|] eqn:E.
  - rewrite (get_branch_name_hit w x s f E) in H. injection H as <- <-.
    split; [|discriminate]. eexists. exact (get_branch_name_hit w2 x s f E).
  - pose proof (get_branch_name_miss_Ret w x s s1 b E H) as ->.
    assert (Hit : get_branch_name w2 x
                    (set_files (add_request s (url x))
                       (<[cached_branchname x :=
                            mkFile (PyText.fmt_opt b
                                    ++ String PyText.newline EmptyString)
                              (now w) (now w)]> (files s)))
                  = (Ret (Some (PyText.strip
                                  (PyText.readline
                                     (PyText.fmt_opt b
                                      ++ String PyText.newline EmptyString)))),
                     set_files (add_request s (url x))
                       (<[cached_branchname x :=
                            mkFile (PyText.fmt_opt b
                                    ++ String PyText.newline EmptyString)
                              (now w) (now w)]> (files s)))).
    { apply (get_branch_name_hit w2 x _
               (mkFile (PyText.fmt_opt b ++ String PyText.newline EmptyString)
                  (now w) (now w))).
      cbn [files set_files]. apply lookup_insert_eq. }
    split; [eexists; exact Hit|]. intros _.
    split; [reflexivity|]. split; [exact Hit|].
    intros name -> Hc. rewrite Hit. cbn [PyText.fmt_opt].
    now rewrite (strip_clean_line name Hc).
Qed.

Lemma get_branch_name_cached_witness :
  get_branch_name Sample.empty_repo Sample.acme
    (state_after (get_branch_name Sample.online Sample.acme) Sample.ready)
  = (Ret (Some "main"),
     state_after (get_branch_name Sample.online Sample.acme) Sample.ready).
Proof.
  refine (proj2 (proj2 (proj2 (get_branch_name_cached Sample.online
            Sample.empty_repo Sample.acme Sample.ready _ (Some "main") _) _))
            "main" _ _).
  - vm_compute; reflexivity.
  - vm_compute; reflexivity.
  - reflexivity.
  - reflexivity.
Defined.

(** X8: how [get_branch_name_from_github] sorts what it gets.  It issues one
    GET, for the URL of the repository, and touches nothing else.  It raises
    [EmptyRepository] exactly when the page came whole, the pattern found no
    link, and the page has the words of the empty repository; a link, when
    there is one, wins over those words. *)
Theorem get_branch_name_from_github_sorts (w : World) (x : Exploit)
    (s : State) :
  state_after (get_branch_name_from_github w x) s = add_request s (url x)
  /\ (forall u s',
        get_branch_name_from_github w x s = (Raise (EmptyRepository u), s')
        <-> exists r,
              http_get w (List.length (requests s)) (url x) = Some r
              /\ broken r = false
              /\ re_search w (branch_pattern x) (text r) = ReNoMatch
              /\ PyStr.contains "This repository is empty." (text r) = true
              /\ u = url x /\ s' = add_request s (url x))
  /\ (forall r b,
        http_get w (List.length (requests s)) (url x) = Some r ->
        broken r = false ->
        re_search w (branch_pattern x) (text r) = ReMatch b ->
        get_branch_name_from_github w x s = (Ret b, add_request s (url x))).
Proof.
  split; [apply state_after_github|]. split.
  - intros u s'. unfold get_branch_name_from_github, requests_get. unfold_M.
    destruct (http_get w _ (url x)) as [r|] eqn:Hr.
    2:{ split; [discriminate | now intros (r & [=] & _)]. }
    cbn [negb andb]. destruct (broken r) eqn:Hb.
    { split; [discriminate|]. intros (r' & [= <-] & Hb' & _). congruence. }
    destruct (re_search w (branch_pattern x) (text r)) eqn:Hs.
    + split; [discriminate|]. intros (r' & [= <-] & _ & Hs' & _). congruence.
    + destruct (PyStr.contains _ (text r)) eqn:Hc.
      * split.
        -- intros [= <- <-]. now exists r.
        -- now intros (r' & [= <-] & _ & _ & _ & -> & ->).
      * split; [discriminate|].
        intros (r' & [= <-] & _ & _ & Hc' & _). congruence.
    + split; [discriminate|]. intros (r' & [= <-] & _ & Hs' & _). congruence.
  - intros r b Hr Hb Hs. unfold get_branch_name_from_github, requests_get.
    unfold_M. rewrite Hr, Hb. cbn [negb andb]. now rewrite Hs.
Qed.

Lemma get_branch_name_from_github_sorts_witness :
  get_branch_name_from_github Sample.online Sample.acme Sample.blank
  = (Ret (Some "main"), add_request Sample.blank (url Sample.acme)).
Proof.
  refine (proj2 (proj2 (get_branch_name_from_github_sorts Sample.online
            Sample.acme Sample.blank)) Sample.landing_page (Some "main") _ _ _);
    reflexivity.
Defined.

(** ** Which files are touched *)

Section KeepsFiles.

Context {A B : Type}.

Lemma keeps_files_preserves (m : M A) : preserves files m -> keeps_files m.
Proof. intros H s p. now rewrite H. Qed.

Lemma keeps_files_bind (m : M A) (k : A -> M B) :
  keeps_files m -> (forall a, keeps_files (k a)) -> keeps_files (m ≫= k).
Proof.
  intros Hm Hk s p Hp. rewrite state_after_bind.
  specialize (Hm s p Hp). unfold state_after in Hm.
  destruct (m s) as [[a|e] s']; cbn [snd] in Hm; [|assumption].
  now apply Hk.
Qed.

Lemma keeps_files_try (m : M A) (h : exn -> bool) (hd : exn -> M A) :
  keeps_files m -> (forall e, keeps_files (hd e)) ->
  keeps_files (try_except m h hd).
Proof.
  intros Hm Hh s p Hp. rewrite state_after_try.
  specialize (Hm s p Hp). unfold state_after in Hm.
  destruct (m s) as [[a|e] s']; cbn [snd] in Hm; [assumption|].
  destruct (h e); [now apply Hh | assumption].
Qed.

End KeepsFiles.

Section Touched.

Variables (w : World).

Lemma is_Some_insert (fs : gmap string file) (q p : string) (f : file) :
  is_Some (fs !! p) -> is_Some (<[q := f]> fs !! p).
Proof.
  intros H. destruct (decide (q = p)) as [->|Hne].
  - rewrite lookup_insert_eq. eauto.
  - now rewrite lookup_insert_ne.
Qed.

Lemma open_write_keeps (out : string) : keeps_files (OS.open_write w out).
Proof.
  intros s p Hp. unfold state_after, OS.open_write.
  destruct (OS.dir_exists s _); [|exact Hp].
  cbn. now apply is_Some_insert.
Qed.

Lemma write_keeps (out d : string) : keeps_files (OS.write w out d).
Proof.
  intros s p Hp. unfold state_after, OS.write.
  destruct (files s !! out); [|exact Hp].
  cbn. now apply is_Some_insert.
Qed.

Lemma utime_keeps (out : string) (a m : Z) : keeps_files (OS.utime out a m).
Proof.
  intros s p Hp. unfold state_after, OS.utime.
  destruct (files s !! out); [|exact Hp].
  cbn. now apply is_Some_insert.
Qed.

Lemma requests_get_files (u : string) (st : bool) :
  preserves files (requests_get w u st).
Proof. intros s. now rewrite state_after_requests_get. Qed.

Lemma updated_at_files (x : Exploit) : preserves files (updated_at w x).
Proof. intros s. now rewrite state_after_updated_at. Qed.

Lemma github_files (x : Exploit) :
  preserves files (get_branch_name_from_github w x).
Proof. intros s. now rewrite state_after_github. Qed.

Lemma write_chunks_keeps (out : string) (cs : list string) :
  keeps_files (write_chunks w out cs).
Proof.
  induction cs as [|c cs IH]; [now apply keeps_files_preserves|].
  cbn [write_chunks]. apply keeps_files_bind; [apply write_keeps|].
  intros _. exact IH.
Qed.

Lemma write_chunks_other (out p : string) (cs : list string) :
  p <> out -> preserves (fun s => files s !! p) (write_chunks w out cs).
Proof.
  intros Hne. induction cs as [|c cs IH]; [easy|].
  cbn [write_chunks]. apply preserves_bind; [now apply write_other|].
  intros _. exact IH.
Qed.

Lemma get_branch_name_keeps (x : Exploit) : keeps_files (get_branch_name w x).
Proof.
  apply keeps_files_try.
  - apply keeps_files_preserves, preserves_bind; [|easy].
    intros s. now rewrite state_after_open_read.
  - intros _. apply keeps_files_bind;
      [apply keeps_files_preserves, github_files|].
    intros b. apply keeps_files_bind; [apply open_write_keeps|].
    intros _. apply keeps_files_bind; [apply write_keeps|].
    intros _. now apply keeps_files_preserves.
Qed.

Lemma get_branch_name_other (x : Exploit) (p : string) :
  p <> cached_branchname x ->
  preserves (fun s => files s !! p) (get_branch_name w x).
Proof.
  intros Hne. apply preserves_try.
  - apply preserves_bind; [|easy].
    intros s. now rewrite state_after_open_read.
  - intros _. apply preserves_bind;
      [intros s; now rewrite state_after_github|].
    intros b. apply preserves_bind; [now apply open_write_other|].
    intros _. apply preserves_bind; [now apply write_other | easy].
Qed.

Lemma fetch_archive_keeps (x : Exploit) (out : string) :
  keeps_files (fetch_archive w x out).
Proof.
  apply keeps_files_try.
  - apply keeps_files_bind; [apply get_branch_name_keeps|]. intros b.
    apply keeps_files_bind; [apply keeps_files_preserves, requests_get_files|].
    intros r. apply keeps_files_bind; [apply open_write_keeps|].
    intros _. apply keeps_files_bind; [apply write_chunks_keeps|].
    intros _. apply keeps_files_preserves. now destruct (broken r).
  - intros _. apply keeps_files_bind; [apply open_write_keeps|].
    intros _. apply write_keeps.
Qed.

Lemma fetch_archive_other (x : Exploit) (out p : string) :
  p <> out -> p <> cached_branchname x ->
  preserves (fun s => files s !! p) (fetch_archive w x out).
Proof.
  intros Ho Hc. apply preserves_try.
  - apply preserves_bind; [now apply get_branch_name_other|]. intros b.
    apply preserves_bind; [intros s; now rewrite state_after_requests_get|].
    intros r. apply preserves_bind; [now apply open_write_other|].
    intros _. apply preserves_bind; [now apply write_chunks_other|].
    intros _. now destruct (broken r).
  - intros _. apply preserves_bind; [now apply open_write_other|].
    intros _. now apply write_other.
Qed.

Lemma download_zip_keeps (x : Exploit) (out : string) :
  keeps_files (download_zip w x out).
Proof.
  apply keeps_files_bind; [apply fetch_archive_keeps|]. intros _.
  apply keeps_files_bind; [apply keeps_files_preserves, updated_at_files|].
  intros a.
  apply keeps_files_bind; [apply keeps_files_preserves, updated_at_files|].
  intros m. apply utime_keeps.
Qed.

Lemma download_zip_other (x : Exploit) (out p : string) :
  p <> out -> p <> cached_branchname x ->
  preserves (fun s => files s !! p) (download_zip w x out).
Proof.
  intros Ho Hc. apply preserves_bind; [now apply fetch_archive_other|].
  intros _. now apply stamp_other.
Qed.

Lemma state_after_refresh_zip (x : Exploit) (s : State) :
  state_after (refresh_zip w x) s
  = match fst (should_download w x s) with
    | Ret true =>
        state_after (download_zip w x (output_file x))
          (add_dirs s (archive_dirs x))
    | _ => add_dirs s (archive_dirs x)
    end.
Proof.
  unfold state_after. rewrite refresh_zip_run.
  now destruct (fst (should_download w x s)) as [[]|].
Qed.

Lemma refresh_zip_keeps (x : Exploit) : keeps_files (refresh_zip w x).
Proof.
  intros s p Hp. rewrite state_after_refresh_zip.
  destruct (fst (should_download w x s)) as [[]|]; try exact Hp.
  now apply download_zip_keeps.
Qed.

Lemma refresh_zip_other (x : Exploit) (p : string) :
  p <> output_file x -> p <> cached_branchname x ->
  preserves (fun s => files s !! p) (refresh_zip w x).
Proof.
  intros Ho Hc s. rewrite state_after_refresh_zip.
  destruct (fst (should_download w x s)) as [[]|]; try reflexivity.
  now rewrite download_zip_other.
Qed.

End Touched.

(** X9: [refresh_zip] keeps to its pair.  Of the files it touches only the
    archive of the pair and its sidecar; every other path holds after it what
    it held before, and no file is ever removed, however the run ends. *)
Theorem refresh_zip_touches_only (w : World) (x : Exploit) (s : State)
    (p : string) :
  (p <> output_file x -> p <> cached_branchname x ->
   files (state_after (refresh_zip w x) s) !! p = files s !! p)
  /\ (is_Some (files s !! p) ->
      is_Some (files (state_after (refresh_zip w x) s) !! p)).
Proof.
  split.
  - intros Ho Hc. exact (refresh_zip_other w x p Ho Hc s).
  - apply refresh_zip_keeps.
Qed.

Lemma refresh_zip_touches_only_witness :
  files (state_after (refresh_zip Sample.flaky Sample.bolt) Sample.synced)
    !! output_file Sample.acme
  = files Sample.synced !! output_file Sample.acme.
Proof.
  apply (proj1 (refresh_zip_touches_only Sample.flaky Sample.bolt
                  Sample.synced (output_file Sample.acme))); discriminate.
Defined.

(** ** A date that cannot be read; a transfer that broke *)

(** X10: a descriptor whose [updated_at] cannot be read never gets through
    [refresh_zip].  With an archive in place the call raises the [ValueError]
    at the freshness test, before any request and with no file touched.  With
    no archive it fetches first: when the fetch goes through, the archive is
    left as fetched, not stamped, and the [ValueError] is raised after. *)
Theorem refresh_zip_unreadable_date (w : World) (x : Exploit) (s : State) :
  strptime_s w (updated_at_text (data x)) = None ->
  (forall s', refresh_zip w x s <> (Ret tt, s'))
  /\ (forall f,
        files s !! output_file x = Some f ->
        refresh_zip w x s
        = (Raise (ValueError (updated_at_text (data x))),
           add_dirs s (archive_dirs x)))
  /\ (forall s1,
        files s !! output_file x = None ->
        fetch_archive w x (output_file x) (add_dirs s (archive_dirs x))
        = (Ret tt, s1) ->
        refresh_zip w x s
        = (Raise (ValueError (updated_at_text (data x))), s1)).
Proof.
  intros T. rewrite refresh_zip_run, should_download_run, T. cbn [fst].
  split; [|split].
  - intros s' H. destruct (files s !! output_file x); [discriminate|].
    apply download_zip_Ret in H as (t & _ & T' & _). congruence.
  - intros f ->. reflexivity.
  - intros s1 -> F. unfold download_zip.
    rewrite (bind_Ret _ _ _ _ _ F). unfold_M. now rewrite updated_at_run, T.
Qed.

Lemma refresh_zip_unreadable_date_witness :
  refresh_zip Sample.online
    (mkExploit Sample.cve_34527
       (mkRepoData "acme/rpc-leak" "acme" "rpc-leak"
          "https://github.com/acme/rpc-leak" "yesterday"))
    Sample.synced
  = (Raise (ValueError "yesterday"),
     add_dirs Sample.synced (archive_dirs Sample.acme)).
Proof.
  refine (proj1 (proj2 (refresh_zip_unreadable_date Sample.online
            (mkExploit Sample.cve_34527
               (mkRepoData "acme/rpc-leak" "acme" "rpc-leak"
                  "https://github.com/acme/rpc-leak" "yesterday"))
            Sample.synced _))
            (mkFile "PKzip" (inject_Z 1625140800) (inject_Z 1625140800)) _).
  - reflexivity.
  - vm_compute; reflexivity.
Defined.

(** X11: a transfer that broke is not tried again on its own.  The file it
    left has the time of writing as its modification time, so once the clock
    at the time of the failure was not earlier than [updated_at], the next
    [refresh_zip] finds the file fresh: it issues no request and the
    destination keeps the part of the body that had arrived. *)
Theorem broken_transfer_not_retried (w w2 : World) (x : Exploit)
    (s s1 : State) (b : option string) (r : response) (t : Z) :
  get_branch_name w x s = (Ret b, s1) ->
  http_get w (List.length (requests s1)) (archive_url x b) = Some r ->
  broken r = true ->
  OS.dir_exists s1 (Path.dirname (output_file x)) = true ->
  strptime_s w2 (updated_at_text (data x)) = Some t ->
  (inject_Z t <= now w)%Q ->
  let s2 := state_after (download_zip w x (output_file x)) s in
  fst (download_zip w x (output_file x) s)
  = Raise (RequestException (archive_url x b))
  /\ f_data <$> files s2 !! output_file x = Some (text r)
  /\ refresh_zip w2 x s2 = (Ret tt, add_dirs s2 (archive_dirs x)).
Proof.
  intros H Hr Hb Hd T Hle s2.
  assert (E : download_zip w x (output_file x) s
              = (Raise (RequestException (archive_url x b)),
                 set_files (add_request s1 (archive_url x b))
                   (<[output_file x :=
                        mkFile (text r) (now w)
                          (match files s1 !! output_file x with
                           | Some f => st_atime f
                           | None => now w
                           end)]> (files s1)))).
  { unfold download_zip. erewrite bind_Raise; [reflexivity|].
    rewrite (fetch_archive_answered w x _ s s1 b r H Hr Hd), Hb. reflexivity. }
  subst s2. unfold state_after. rewrite E. cbn [fst snd].
  split; [reflexivity|]. split.
  - cbn [files set_files]. now rewrite lookup_insert_eq.
  - rewrite refresh_zip_run, should_download_run. cbn [files set_files fst].
    rewrite lookup_insert_eq, T. cbn [st_mtime].
    destruct (Qltb (now w) (inject_Z t)) eqn:L; [|reflexivity].
    apply Qltb_lt in L. exfalso. exact (Qlt_not_le _ _ L Hle).
Qed.

Lemma broken_transfer_not_retried_witness :
  let s2 := state_after (download_zip Sample.flaky Sample.acme
                           (output_file Sample.acme)) Sample.stale in
  fst (download_zip Sample.flaky Sample.acme (output_file Sample.acme)
         Sample.stale)
  = Raise (RequestException (archive_url Sample.acme (Some "main")))
  /\ f_data <$> files s2 !! output_file Sample.acme = Some "PK"
  /\ refresh_zip Sample.online Sample.acme s2
     = (Ret tt, add_dirs s2 (archive_dirs Sample.acme)).
Proof.
  apply (broken_transfer_not_retried Sample.flaky Sample.online Sample.acme
           Sample.stale Sample.stale (Some "main")
           (mkResponse 200 ["PK"] true) 1625140800).
  - vm_compute; reflexivity.
  - reflexivity.
  - reflexivity.
  - vm_compute; reflexivity.
  - reflexivity.
  - vm_compute; discriminate.
Defined.

(** ** What is asked of the network *)

Lemma after_bind_preserving {A B C : Type} (f : State -> C) (m : M A)
    (k : A -> M B) (s : State) :
  (forall a, preserves f (k a)) ->
  f (state_after (m ≫= k) s) = f (state_after m s).
Proof.
  intros Hk. rewrite state_after_bind. unfold state_after.
  destruct (m s) as [[a|e] s']; cbn [snd]; [apply Hk | reflexivity].
Qed.

Section Asked.

Variables (w : World) (x : Exploit) (out : string).

Lemma fetch_rest_requests (b : option string) (s1 : State) :
  requests
    (state_after
       ((r ← requests_get w (archive_url x b) true;
         OS.open_write w out;;
         iter_content_into w out (archive_url x b) r);;
        atime ← updated_at w x; mtime ← updated_at w x;
        OS.utime out atime mtime) s1)
  = (requests s1 ++ [archive_url x b])%list.
Proof.
  rewrite after_bind_preserving by (intros; apply stamp_requests).
  rewrite after_bind_preserving.
  - now rewrite state_after_requests_get.
  - intros r. apply preserves_bind; [apply open_write_requests|].
    intros _. apply iter_content_into_requests.
Qed.

Lemma get_branch_name_miss_asks (s : State) :
  files s !! cached_branchname x = None ->
  requests (state_after (get_branch_name w x) s)
  = (requests s ++ [url x])%list.
Proof.
  intros E. unfold state_after. rewrite (get_branch_name_miss w x s E).
  match goal with |- requests (snd (?m s)) = _ =>
    change (requests (state_after m s) = (requests s ++ [url x])%list) end.
  rewrite after_bind_preserving.
  - now rewrite state_after_github.
  - intros b. apply preserves_bind; [apply open_write_requests|].
    intros _. apply preserves_bind; [apply write_requests | easy].
Qed.

(** With the sidecar there, one request: the archive of the branch it
    names. *)
Lemma download_zip_hit_asks (s : State) (f : file) :
  files s !! cached_branchname x = Some f ->
  requests (state_after (download_zip w x out) s)
  = (requests s
     ++ [archive_url x (Some (PyText.strip (PyText.readline (f_data f))))])%list.
Proof.
  intros E. unfold state_after.
  rewrite (download_zip_resolved w x out s s _ (get_branch_name_hit w x s f E)).
  apply fetch_rest_requests.
Qed.

(** With no sidecar, the page, and the archive after it when the branch
    was found. *)
Lemma download_zip_miss_asks (s : State) :
  files s !! cached_branchname x = None ->
  requests (state_after (download_zip w x out) s) = (requests s ++ [url x])%list
  \/ exists b,
       requests (state_after (download_zip w x out) s)
       = (requests s ++ [url x; archive_url x b])%list.
Proof.
  intros E. pose proof (get_branch_name_miss_asks s E) as G.
  unfold state_after in G.
  destruct (get_branch_name w x s) as [[b|e] s1] eqn:H; cbn [snd] in G.
  - right. exists b. unfold state_after.
    rewrite (download_zip_resolved w x out s s1 b H).
    pose proof (fetch_rest_requests b s1) as R. unfold state_after in R.
    rewrite R, G, <- app_assoc. reflexivity.
  - left. unfold download_zip.
    rewrite after_bind_preserving by (intros; apply stamp_requests).
    unfold fetch_archive. rewrite state_after_try.
    match goal with |- context [(?m ≫= ?k) s] =>
      rewrite (bind_Raise m k s e s1 H) end.
    destruct (is_EmptyRepository e); [|exact G].
    rewrite <- G. apply preserves_bind; [apply open_write_requests|].
    intros _. apply write_requests.
Qed.

End Asked.

(** X12: what one [download_zip] asks of the network.  With the sidecar in
    place it issues one GET, for the archive of the branch the sidecar names.
    With no sidecar it asks for the page of the repository first, and for the
    archive after it only when the branch was found; never more than two
    requests, never none. *)
Theorem download_zip_asks (w : World) (x : Exploit) (out : string) (s : State) :
  (forall f,
     files s !! cached_branchname x = Some f ->
     requests (state_after (download_zip w x out) s)
     = (requests s
        ++ [archive_url x (Some (PyText.strip (PyText.readline (f_data f))))])%list)
  /\ (files s !! cached_branchname x = None ->
      requests (state_after (download_zip w x out) s)
      = (requests s ++ [url x])%list
      \/ exists b,
           requests (state_after (download_zip w x out) s)
           = (requests s ++ [url x; archive_url x b])%list).
Proof.
  split; [intros f; apply download_zip_hit_asks | apply download_zip_miss_asks].
Qed.

Lemma download_zip_asks_witness :
  requests (state_after (download_zip Sample.not_found Sample.acme
                           (output_file Sample.acme)) Sample.synced)
  = (requests Sample.synced
     ++ ["https://github.com/acme/rpc-leak/archive/refs/heads/main.zip"])%list.
Proof.
  refine (proj1 (download_zip_asks Sample.not_found Sample.acme
                   (output_file Sample.acme) Sample.synced)
            (mkFile ("main" ++ String PyText.newline EmptyString)
               Sample.clock Sample.clock) _).
  vm_compute; reflexivity.
Defined.

(** X13: the sidecar outlives a fetch that fails.  When the branch had to be
    looked up and was found, the sidecar is on disk once [download_zip] is
    through, whatever became of the archive; the next attempt does not ask
    for the page again, its one request is for the archive. *)
Theorem sidecar_outlives_fetch (w w2 : World) (x : Exploit) (s s1 : State)
    (b : option string) :
  files s !! cached_branchname x = None ->
  get_branch_name w x s = (Ret b, s1) ->
  let line := PyText.fmt_opt b ++ String PyText.newline EmptyString in
  let s2 := state_after (download_zip w x (output_file x)) s in
  files s2 !! cached_branchname x = Some (mkFile line (now w) (now w))
  /\ requests (state_after (download_zip w2 x (output_file x)) s2)
     = (requests s2
        ++ [archive_url x (Some (PyText.strip (PyText.readline line)))])%list.
Proof.
  intros E H line s2.
  assert (F : files s2 !! cached_branchname x
              = Some (mkFile line (now w) (now w))).
  { subst s2. unfold state_after.
    rewrite (download_zip_resolved w x _ s s1 b H).
    pose proof (cached_branchname_ne_output_file x) as Hne.
    match goal with |- files (snd (?m s1)) !! _ = _ =>
      assert (P : preserves (fun s => files s !! cached_branchname x) m) end.
    { apply preserves_bind; [|intros; now apply stamp_other].
      apply preserves_bind; [intros s0; now rewrite state_after_requests_get|].
      intros r. apply preserves_bind; [now apply open_write_other|].
      intros _. apply preserves_bind; [now apply write_chunks_other|].
      intros _. now destruct (broken r). }
    specialize (P s1). unfold state_after in P. cbn beta in P. rewrite P.
    rewrite (get_branch_name_miss_Ret w x s s1 b E H).
    cbn [files set_files]. apply lookup_insert_eq. }
  split; [exact F|].
  exact (download_zip_hit_asks w2 x (output_file x) s2 _ F).
Qed.

Lemma sidecar_outlives_fetch_witness :
  let s2 := state_after (download_zip Sample.flaky Sample.acme
                           (output_file Sample.acme)) Sample.ready in
  files s2 !! cached_branchname Sample.acme
  = Some (mkFile ("main" ++ String PyText.newline EmptyString)
            Sample.clock Sample.clock)
  /\ requests (state_after (download_zip Sample.online Sample.acme
                              (output_file Sample.acme)) s2)
     = (requests s2
        ++ [archive_url Sample.acme
              (Some (PyText.strip
                       (PyText.readline
                          ("main" ++ String PyText.newline EmptyString))))])%list.
Proof.
  apply (sidecar_outlives_fetch Sample.flaky Sample.online Sample.acme
           Sample.ready
           (state_after (get_branch_name Sample.flaky Sample.acme) Sample.ready)
           (Some "main")).
  - vm_compute; reflexivity.
  - vm_compute; reflexivity.
Defined.

(** ** Loading the feed, and the exit status *)

Lemma fromstr_Ret_parsed (s : string) (c : CVE) :
  fromstr s = Ret c -> parsed_cve c /\ cve_pattern_at_start s.
Proof.
  unfold fromstr. destruct (cve_re_search s) as [[y i]|] eqn:E; [|discriminate].
  intros [= <-]. pose proof (cve_re_search_Some s y i E) as P. split; [|exact P].
  destruct P as (y' & i' & rest & -> & Hy & Hi & Dy & Di).
  rewrite (cve_re_search_at_start y' i' rest Hy Hi Dy Di) in E.
  injection E as <- <-. exists y', (i' ++ fst (PyStr.span_digits rest)).
  repeat split; try assumption.
  - now apply append_nonempty_l.
  - rewrite all_digits_app, Di. cbn [andb].
    now destruct (span_digits_spec rest) as (_ & H & _).
Qed.

Lemma fromstr_at_start (s : string) :
  cve_pattern_at_start s -> exists c, fromstr s = Ret c.
Proof.
  intros (y & i & rest & -> & Hy & Hi & Dy & Di). unfold fromstr.
  rewrite (cve_re_search_at_start y i rest Hy Hi Dy Di). eauto.
Qed.

(** X14: loading is all or nothing.  [main] gets its list of pairs exactly
    when every file of the feed has a name that begins with the pattern and
    a content that loads; then there is one pair for each record, and the
    identifier of every pair is two strings of digits, not integers. *)
Theorem load_pocs_all_or_nothing
    (fs : list (string * option (list RepoData))) :
  ((exists pocs, load_pocs fs = Ret pocs) <-> Forall feed_file_ok fs)
  /\ (forall pocs,
        load_pocs fs = Ret pocs ->
        List.length pocs
        = list_sum (List.map (fun nc => List.length (default [] (snd nc))) fs)
        /\ Forall (fun poc => parsed_cve (cve poc)) pocs).
Proof.
  induction fs as [|[name content] fs [IH1 IH2]].
  - split; [split; [constructor | intros _; now exists []]|].
    intros pocs [= <-]. split; [reflexivity | constructor].
  - cbn [load_pocs]. split.
    + split.
      * intros [pocs H].
        destruct (fromstr (Path.basename name)) as [c|e] eqn:F; [|discriminate].
        destruct content as [records|]; [|discriminate].
        destruct (load_pocs fs) as [pocs'|e] eqn:L; [|discriminate].
        constructor; [|apply IH1; eauto].
        split; [exact (proj2 (fromstr_Ret_parsed _ c F)) | discriminate].
      * intros H. inversion H as [|? ? [Hn Hc] Hfs]; subst.
        cbn [fst snd] in Hn, Hc.
        destruct (fromstr_at_start _ Hn) as [c ->].
        destruct content as [records|]; [|congruence].
        apply IH1 in Hfs as [pocs' ->]. eauto.
    + intros pocs H.
      destruct (fromstr (Path.basename name)) as [c|e] eqn:F; [|discriminate].
      destruct content as [records|]; [|discriminate].
      destruct (load_pocs fs) as [pocs'|e] eqn:L; [|discriminate].
      injection H as <-. destruct (IH2 pocs' eq_refl) as [Hlen Hall].
      split.
      * rewrite List.length_app, List.length_map. cbn. now rewrite Hlen.
      * apply Forall_app. split; [|exact Hall].
        apply Forall_forall. intros poc Hin.
        apply list_elem_of_In, in_map_iff in Hin as [r [<- _]].
        exact (proj1 (fromstr_Ret_parsed _ c F)).
Qed.

Lemma load_pocs_all_or_nothing_witness :
  List.length [Sample.acme; Sample.bolt; Sample.cato] = 3%nat
  /\ Forall (fun poc => parsed_cve (cve poc))
       [Sample.acme; Sample.bolt; Sample.cato].
Proof.
  exact (proj2 (load_pocs_all_or_nothing (json_files Sample.feed))
           [Sample.acme; Sample.bolt; Sample.cato] eq_refl).
Defined.

(** ** The loop and the exit status *)

Section Loop.

Variable w : World.

Lemma sync_one_run (p : Exploit) (s : State) :
  exists s', sync_one w p s = (Ret tt, s')
             /\ files s' = files (state_after (refresh_zip w p) s)
             /\ requests s' = requests (state_after (refresh_zip w p) s).
Proof.
  unfold sync_one, try_except, state_after, logger.
  destruct (refresh_zip w p s) as [[[]|e] s1]; cbn [snd].
  - now exists s1.
  - destruct (is_EmptyRepository e); eexists; split; reflexivity || now split.
Qed.


Lemma refresh_zip_asks (x : Exploit) (s : State) :
  exists l, requests (state_after (refresh_zip w x) s) = (requests s ++ l)%list
            /\ (List.length l <= 2)%nat.
Proof.
  rewrite state_after_refresh_zip.
  destruct (fst (should_download w x s)) as [[]|];
    try (exists []; split; [cbn; now rewrite app_nil_r | cbn; lia]).
  set (s0 := add_dirs s (archive_dirs x)).
  change (requests s) with (requests s0).
  destruct (files s0 !! cached_branchname x) as [f|] eqn:E.
  - rewrite (download_zip_hit_asks w x _ s0 f E). eexists; split; [reflexivity|].
    cbn; lia.
  - destruct (download_zip_miss_asks w x (output_file x) s0 E) as [->|[b ->]];
      eexists; (split; [reflexivity | cbn; lia]).
Qed.

End Loop.

(** X15: the loop of [main] asks for little: over a whole run every pair
    costs at most two requests, and what was asked before is kept in front
    of what is asked now. *)
Theorem sync_pocs_asks_at_most_two_each (w : World) (pocs : list Exploit)
    (s : State) :
  exists l,
    requests (state_after (sync_pocs w pocs) s) = (requests s ++ l)%list
    /\ (List.length l <= 2 * List.length pocs)%nat.
Proof.
  revert s. induction pocs as [|p pocs IH]; intros s.
  - exists []. split; [cbn; now rewrite app_nil_r | cbn; lia].
  - cbn [sync_pocs]. rewrite state_after_bind.
    destruct (sync_one_run w p s) as (s' & -> & _ & Hr).
    destruct (refresh_zip_asks w p s) as (l1 & Hl1 & Hn1).
    destruct (IH s') as (l2 & Hl2 & Hn2).
    exists (l1 ++ l2)%list. split.
    + now rewrite Hl2, Hr, Hl1, <- app_assoc.
    + rewrite List.length_app. cbn [List.length]. lia.
Qed.

